(** * A rate-limiting API gateway: the code of [config.py], [proxy.py] and
    [main.py] as Rocq functions, and the properties of its specification.

    The gateway is asynchronous Python on FastAPI, httpx and asyncio.  The
    handlers are embedded in a small monad [M] that threads the process
    globals (the two request counters, the semaphore's free-slot count) and
    a ghost trace of the events on the semaphore and on the backend
    connection, and whose outcomes are a returned value, a raised Python
    exception, or a coroutine suspended on the semaphore.  Everything the
    outside world decides (what the backend answers and when, whether the
    store answers a ping) is an argument of the handler.  A scheduler that
    interleaves invocations of [forward_proxy] at their suspension points
    is given next to the sequential reading.

    The definitions come first: the runtime ([Py]), the configuration
    ([Config]), the state and the monad ([Gateway]), the two source files
    ([Proxy], [Main]), the scheduler ([Scheduler]), what the properties
    are stated with ([Views], [Samples], [MoreViews]), the order of the
    routes ([Routes]) and startup and shutdown ([Lifecycle]).  The
    properties follow. *)

From Stdlib Require Import ZArith String Ascii List Lia DecimalString.
From stdpp Require Import base gmap strings.
Import ListNotations.

Local Open Scope Z_scope.
Local Open Scope string_scope.

(** ** The pieces of the Python runtime and of the libraries the code uses *)

Module Py.

(** [str(n)] for an integer. *)
Definition str_of_int (n : Z) : string := NilZero.string_of_int (Z.to_int n).

(** [needle in hay] on strings: some suffix of [hay] starts with [needle].
    The comparison is case sensitive. *)
Fixpoint str_in (needle hay : string) : bool :=
  if String.prefix needle hay then true
  else match hay with
       | EmptyString => false
       | String _ rest => str_in needle rest
       end.

(** [c] does not occur in [s]. *)
Fixpoint char_free (c : ascii) (s : string) : bool :=
  match s with
  | EmptyString => true
  | String d rest => negb (Ascii.eqb c d) && char_free c rest
  end.

(** [s.lower()] on ASCII letters. *)
Definition lower_ascii (c : ascii) : ascii :=
  let n := nat_of_ascii c in
  if (Nat.leb 65 n && Nat.leb n 90)%bool then ascii_of_nat (n + 32) else c.

Fixpoint lower (s : string) : string :=
  match s with
  | EmptyString => EmptyString
  | String c rest => String (lower_ascii c) (lower rest)
  end.

(** [sep.join(items)]. *)
Fixpoint join (sep : string) (items : list string) : string :=
  match items with
  | [] => ""
  | [x] => x
  | x :: rest => x ++ sep ++ join sep rest
  end.

(** The exception classes the handlers can meet: the builtins, httpx's
    hierarchy ([httpx/_exceptions.py]), redis's connection error and
    FastAPI's [HTTPException]. *)
Inductive ExcClass : Type :=
  | Exception_
  | AttributeError
  | KeyError
  | RuntimeError
  | ValueError
  | UnicodeError
  | UnicodeEncodeError
  | HTTPError
  | RequestError
  | TransportError
  | TimeoutException
  | ConnectTimeout
  | ReadTimeout
  | WriteTimeout
  | PoolTimeout
  | NetworkError
  | ConnectError
  | ReadError
  | WriteError
  | CloseError
  | ProtocolError
  | LocalProtocolError
  | RemoteProtocolError
  | ProxyError
  | UnsupportedProtocol
  | DecodingError
  | TooManyRedirects
  | HTTPStatusError
  | RedisError
  | RedisConnectionError
  | HTTPException.

Global Instance ExcClass_eq_dec : EqDecision ExcClass.
Proof. solve_decision. Defined.

(** The base class of each class ([None] for [Exception] itself, the root
    of what [except Exception] catches). *)
Definition base (c : ExcClass) : option ExcClass :=
  match c with
  | Exception_ => None
  | AttributeError | KeyError | RuntimeError => Some Exception_
  | ValueError => Some Exception_
  | UnicodeError => Some ValueError
  | UnicodeEncodeError => Some UnicodeError
  | HTTPError => Some Exception_
  | RequestError => Some HTTPError
  | TransportError => Some RequestError
  | TimeoutException => Some TransportError
  | ConnectTimeout | ReadTimeout | WriteTimeout | PoolTimeout =>
      Some TimeoutException
  | NetworkError => Some TransportError
  | ConnectError | ReadError | WriteError | CloseError => Some NetworkError
  | ProtocolError => Some TransportError
  | LocalProtocolError | RemoteProtocolError => Some ProtocolError
  | ProxyError | UnsupportedProtocol => Some TransportError
  | DecodingError | TooManyRedirects => Some RequestError
  | HTTPStatusError => Some HTTPError
  | RedisError => Some Exception_
  | RedisConnectionError => Some RedisError
  | HTTPException => Some Exception_
  end.

(** [issubclass(c, d)], walking up the chain of bases; the hierarchy is
    six levels deep. *)
Fixpoint issubclass_fuel (fuel : nat) (c d : ExcClass) : bool :=
  if decide (c = d) then true
  else match fuel with
       | O => false
       | S fuel' => match base c with
                    | Some b => issubclass_fuel fuel' b d
                    | None => false
                    end
       end.

Definition issubclass : ExcClass -> ExcClass -> bool := issubclass_fuel 6.

(** An exception object: its class, its [str(e)], and the status code it
    carries when it is an [httpx.HTTPStatusError] ([e.response.status_code])
    or a FastAPI [HTTPException] ([status_code], with [detail] as text). *)
Record PyExc : Type := {
  exc_type : ExcClass;
  exc_status_code : Z;
  exc_text : string
}.

Definition Exc (cls : ExcClass) (msg : string) : PyExc :=
  {| exc_type := cls; exc_status_code := 0; exc_text := msg |}.

Definition StatusError (code : Z) (msg : string) : PyExc :=
  {| exc_type := HTTPStatusError; exc_status_code := code; exc_text := msg |}.

Definition HTTPExc (code : Z) (detail : string) : PyExc :=
  {| exc_type := HTTPException; exc_status_code := code; exc_text := detail |}.

(** [f"{e}"]. *)
Definition str_of_exc (e : PyExc) : string := exc_text e.

Definition isinstance (e : PyExc) (c : ExcClass) : bool :=
  issubclass (exc_type e) c.

(** What an awaited external call gives back. *)
Inductive Result (A : Type) : Type :=
  | Ok (a : A)
  | Err (e : PyExc).
Arguments Ok {A} a.
Arguments Err {A} e.

(** A Python [str] is written as the string of its UTF-8 bytes, so that a
    character below U+0080 is one byte, a character from U+0080 to U+00FF
    is a byte 194 or 195 and a second byte, and every other character
    starts with a byte of 196 or more.  [s.encode("latin-1")] succeeds when
    every character of [s] is below U+0100. *)
Fixpoint encodes_latin1 (s : string) : bool :=
  match s with
  | EmptyString => true
  | String c rest => (nat_of_ascii c <? 196)%nat && encodes_latin1 rest
  end.


(** [s.lstrip(chars)] and [s.replace(c, "")] for the characters [p]
    holds of. *)
Fixpoint lstrip (p : ascii -> bool) (s : string) : string :=
  match s with
  | EmptyString => EmptyString
  | String c rest => if p c then lstrip p rest else s
  end.

Fixpoint remove (p : ascii -> bool) (s : string) : string :=
  match s with
  | EmptyString => EmptyString
  | String c rest => if p c then remove p rest else String c (remove p rest)
  end.

(** [s] cut before its first character [p] holds of: what comes before it,
    and the rest with that character first (empty when there is none). *)
Fixpoint break_at (p : ascii -> bool) (s : string) : string * string :=
  match s with
  | EmptyString => (EmptyString, EmptyString)
  | String c rest =>
      if p c then (EmptyString, s)
      else let '(before, after) := break_at p rest in (String c before, after)
  end.

Fixpoint all_chars (p : ascii -> bool) (s : string) : bool :=
  match s with
  | EmptyString => true
  | String c rest => p c && all_chars p rest
  end.

Definition is_char (c d : ascii) : bool := Ascii.eqb c d.

(** The characters [urlsplit] strips from the left of a URL (the C0
    controls and the space), and the three it removes wherever they are
    (tab, line feed, carriage return). *)
Definition is_c0_or_space (c : ascii) : bool := (nat_of_ascii c <=? 32)%nat.

Definition is_unsafe (c : ascii) : bool :=
  let n := nat_of_ascii c in
  ((n =? 9) || (n =? 10) || (n =? 13))%nat.

Definition is_alpha (c : ascii) : bool :=
  let n := nat_of_ascii c in
  ((65 <=? n) && (n <=? 90) || (97 <=? n) && (n <=? 122))%nat.

(** [urllib.parse.scheme_chars]: letters, digits, [+], [-] and [.]. *)
Definition is_scheme_char (c : ascii) : bool :=
  let n := nat_of_ascii c in
  (is_alpha c || (48 <=? n) && (n <=? 57)
   || (n =? 43) || (n =? 45) || (n =? 46))%nat.

(** The delimiters that end the network location: [/], [?] and [#]. *)
Definition is_delimiter (c : ascii) : bool :=
  let n := nat_of_ascii c in
  ((n =? 47) || (n =? 63) || (n =? 35))%nat.

Record SplitResult : Type := {
  sr_scheme : string;
  sr_netloc : string;
  sr_path : string;
  sr_query : string;
  sr_fragment : string
}.

(** What is left of [s] without its first character. *)
Definition tail (s : string) : string :=
  match s with
  | EmptyString => EmptyString
  | String _ rest => rest
  end.

(** The steps of [urllib.parse.urlsplit]: a scheme is taken when the URL
    starts with a letter and has only scheme characters before its first
    colon; after [//] the network location goes up to the first delimiter;
    the fragment is cut at the first [#] and then the query at the first
    [?]. *)
Definition split_scheme (url : string) : string * string :=
  let '(before, after) := break_at (is_char ":") url in
  match after, before with
  | String _ rest, String first _ =>
      if is_alpha first && all_chars is_scheme_char before
      then (lower before, rest)
      else (EmptyString, url)
  | _, _ => (EmptyString, url)
  end.

Definition split_netloc (url : string) : string * string :=
  match url with
  | String "/" (String "/" rest) => break_at is_delimiter rest
  | _ => (EmptyString, url)
  end.

Definition split_at (c : ascii) (url : string) : string * string :=
  let '(before, after) := break_at (is_char c) url in (before, tail after).

(** [urllib.parse.urlsplit(url)]: the unsafe characters are stripped and
    removed, then the steps above are taken in turn.  The checks of the
    network location that make the library raise a [ValueError] (an
    unmatched or ill-formed bracket, a character that normalises to a
    delimiter) are left out. *)
Definition urlsplit (url : string) : SplitResult :=
  let url := remove is_unsafe (lstrip is_c0_or_space url) in
  let '(scheme, url) := split_scheme url in
  let '(netloc, url) := split_netloc url in
  let '(url, fragment) := split_at "#" url in
  let '(url, query) := split_at "?" url in
  {| sr_scheme := scheme;
     sr_netloc := netloc;
     sr_path := url;
     sr_query := query;
     sr_fragment := fragment |}.

End Py.

(** ** [config.py] *)

Module Config.

Definition PRIMARY_BACKEND : string := "http://127.0.0.1:8001/".
Definition MAX_CONCURRENT_REQUESTS : nat := 5.
Definition RATE_LIMITS : gmap string Z :=
  <["GET" := 5]> (<["POST" := 5]> (<["PUT" := 5]> (<["DELETE" := 5]> ∅))).
Definition TIME_WINDOW : Z := 60.

End Config.

(** ** The process state and the monad of the handlers *)

Module Gateway.
Import Py.

(** [request.url] as the handlers read it: its [path], [query] and
    [scheme]. *)
Record URL : Type := {
  url_path : string;
  url_query : string;
  url_scheme : string
}.

Record Address : Type := {
  host : string;
  port : Z
}.

(** The request as the server hands it to Starlette: the ASGI scope
    ([scheme], [server], [path], [query_string], [headers] with one entry
    per header line and names in lower case, [client], which is [None]
    when the server cannot tell the peer's address) and the body. *)
Record Request : Type := {
  req_method : string;
  req_scheme : string;
  req_server : option (string * Z);
  req_path : string;
  req_query_string : string;
  req_raw_headers : list (string * string);
  req_client : option Address;
  req_body : list Byte.byte
}.

(** The first value among the header lines named [name]. *)
Fixpoint first_value (name : string) (raw : list (string * string))
  : option string :=
  match raw with
  | [] => None
  | (k, v) :: rest => if String.eqb k name then Some v else first_value name rest
  end.

(** [request.headers[key]]: Starlette's [Headers] looks the lowered key up
    among the header lines and gives the first value. *)
Definition headers_getitem (raw : list (string * string)) (key : string)
  : option string :=
  first_value (lower key) raw.

(** [dict(request.headers)]: the names of the header lines, each with
    [request.headers[name]], so that a name that comes on several lines
    keeps the value of the first.  The lookup finds nothing only for a
    name that no line has in lower case, which the server does not
    deliver; such a name is left out. *)
Definition dict_of_headers (raw : list (string * string)) : gmap string string :=
  fold_right
    (fun kv d =>
       match headers_getitem raw (fst kv) with
       | Some v => <[fst kv := v]> d
       | None => d
       end)
    ∅ raw.

Definition req_headers (request : Request) : gmap string string :=
  dict_of_headers (req_raw_headers request).

(** The ports a scheme stands for in Starlette's [URL]. *)
Definition default_port (scheme : string) : option Z :=
  if String.eqb scheme "http" then Some 80
  else if String.eqb scheme "https" then Some 443
  else if String.eqb scheme "ws" then Some 80
  else if String.eqb scheme "wss" then Some 443
  else None.

(** The string Starlette's [URL(scope=...)] builds: the scheme and the
    value of the [host] header line before the path, or the server's
    address when there is no such line, then the query string. *)
Definition url_string (request : Request) : string :=
  let scheme := req_scheme request in
  let path := req_path request in
  let url :=
    match first_value "host" (req_raw_headers request) with
    | Some host_header => scheme ++ "://" ++ host_header ++ path
    | None =>
        match req_server request with
        | None => path
        | Some (host, port) =>
            if bool_decide (default_port scheme = Some port)
            then scheme ++ "://" ++ host ++ path
            else scheme ++ "://" ++ host ++ ":" ++ str_of_int port ++ path
        end
    end in
  if String.eqb (req_query_string request) "" then url
  else url ++ "?" ++ req_query_string request.

(** [request.url]: the components [urlsplit] finds in that string. *)
Definition req_url (request : Request) : URL :=
  let components := urlsplit (url_string request) in
  {| url_path := sr_path components;
     url_query := sr_query components;
     url_scheme := sr_scheme components |}.

(** The arguments of [client.request(method=, url=, headers=, content=)]. *)
Record OutboundRequest : Type := {
  out_method : string;
  out_url : string;
  out_headers : gmap string string;
  out_content : list Byte.byte
}.

(** An [httpx.Response]: [headers] is httpx's multi-valued, case
    insensitive [Headers], as [str]s. *)
Record BackendResponse : Type := {
  resp_content : list Byte.byte;
  resp_status_code : Z;
  resp_headers : list (string * string)
}.

(** A Starlette [Response] as its constructor leaves it: [body],
    [status_code], [raw_headers] (as [str]s) and [media_type]. *)
Record Response : Type := {
  content : list Byte.byte;
  status_code : Z;
  headers : list (string * string);
  media_type : string
}.

(** [httpx.Headers.get(key, default)]: the values of every header whose
    name matches [key] without regard to case, joined with a comma, or
    [default] when there is none. *)
Definition headers_get (hs : list (string * string)) (key default : string)
  : string :=
  match map snd (List.filter (fun kv => String.eqb (lower (fst kv)) (lower key)) hs) with
  | [] => default
  | items => join ", " items
  end.

(** [httpx.Headers.items()]: one item per name, in lower case and in the
    order the names first come; the values of a name that comes several
    times are joined with a comma. *)
Fixpoint merge_item (k v : string) (items : list (string * string))
  : list (string * string) :=
  match items with
  | [] => [(k, v)]
  | (k', v') :: rest =>
      if String.eqb k' k then (k', v' ++ ", " ++ v) :: rest
      else (k', v') :: merge_item k v rest
  end.

Definition headers_items (hs : list (string * string)) : list (string * string) :=
  fold_left (fun items kv => merge_item (lower (fst kv)) (snd kv) items) hs [].

(** The comprehension of [Response.init_headers], which lowers each name
    and encodes name and value in latin-1: the first one that cannot be
    encoded raises a [UnicodeEncodeError] (its text is never read). *)
Fixpoint encode_headers (items : list (string * string))
  : Result (list (string * string)) :=
  match items with
  | [] => Ok []
  | (k, v) :: rest =>
      if encodes_latin1 (lower k) && encodes_latin1 v
      then match encode_headers rest with
           | Ok raw => Ok ((lower k, v) :: raw)
           | Err e => Err e
           end
      else Err (Exc UnicodeEncodeError "")
  end.

(** A status that has no body: below 200, 204 or 304. *)
Definition bodiless (status : Z) : bool :=
  ((status <? 200)%Z || (status =? 204)%Z || (status =? 304)%Z)%bool.

(** [Response(content=, status_code=, headers=, media_type=)] for a
    mapping [headers] with the given items: the headers are encoded; a
    [content-length] is added when there is none and the status has a body;
    a [content-type] with the media type is added when there is none (with
    a charset when the type is a text type without one). *)
Definition new_response (body : list Byte.byte) (status : Z)
  (items : list (string * string)) (media : string) : Result Response :=
  match encode_headers items with
  | Err e => Err e
  | Ok raw =>
      let keys := map fst raw in
      let populate_content_length :=
        negb (existsb (String.eqb "content-length") keys) in
      let populate_content_type :=
        negb (existsb (String.eqb "content-type") keys) in
      let raw :=
        if populate_content_length && negb (bodiless status)
        then (raw ++ [("content-length", str_of_int (Z.of_nat (length body)))])%list
        else raw in
      let content_type :=
        if String.prefix "text/" media && negb (str_in "charset=" (lower media))
        then media ++ "; charset=utf-8" else media in
      if populate_content_type
      then if encodes_latin1 content_type
           then Ok {| content := body;
                      status_code := status;
                      headers := (raw ++ [("content-type", content_type)])%list;
                      media_type := media |}
           else Err (Exc UnicodeEncodeError "")
      else Ok {| content := body;
                 status_code := status;
                 headers := raw;
                 media_type := media |}
  end.

(** Ghost events, in the order they happen. *)
Inductive Event : Type :=
  | Acquire
  | Release
  | BackendCall (r : OutboundRequest).

(** The module globals of [main.py] and [proxy.py] that change at run
    time, and the ghost trace. *)
Record World : Type := {
  total_requests_processed : Z;
  total_requests_blocked : Z;
  semaphore : nat;
  trace : list Event
}.

Definition initial_world : World :=
  {| total_requests_processed := 0;
     total_requests_blocked := 0;
     semaphore := Config.MAX_CONCURRENT_REQUESTS;
     trace := [] |}.

(** How a coroutine ends: with a value, with an exception, or never while
    nothing else runs (it waits in [semaphore.acquire()]). *)
Inductive Outcome (A : Type) : Type :=
  | Returned (a : A)
  | Raised (e : PyExc)
  | Blocked.
Arguments Returned {A} a.
Arguments Raised {A} e.
Arguments Blocked {A}.

Definition M (A : Type) : Type := World -> Outcome A * World.

Definition ret {A} (a : A) : M A := fun w => (Returned a, w).

Definition raise {A} (e : PyExc) : M A := fun w => (Raised e, w).

Definition bind {A B} (m : M A) (k : A -> M B) : M B :=
  fun w =>
    match m w with
    | (Returned a, w') => k a w'
    | (Raised e, w') => (Raised e, w')
    | (Blocked, w') => (Blocked, w')
    end.

Declare Scope gw_scope.
Delimit Scope gw_scope with gw.
Notation "x <- m ;; k" := (bind m (fun x => k))
  (at level 100, m at next level, right associativity) : gw_scope.
Notation "m ;;; k" := (bind m (fun _ => k))
  (at level 100, right associativity) : gw_scope.
Local Open Scope gw_scope.

(** Awaiting an external call. *)
Definition await {A} (r : Result A) : M A :=
  match r with
  | Ok a => ret a
  | Err e => raise e
  end.

Definition emit (ev : Event) : M unit :=
  fun w => (Returned tt,
            {| total_requests_processed := total_requests_processed w;
               total_requests_blocked := total_requests_blocked w;
               semaphore := semaphore w;
               trace := trace w ++ [ev] |}).

(** [try: body  except C1 as e: h1  except C2 as e: h2 ...]: the first
    clause whose class the exception is an instance of handles it; an
    exception raised by a handler is not offered to its siblings. *)
Fixpoint select_handler {A} (handlers : list (ExcClass * (PyExc -> M A)))
  (e : PyExc) : option (M A) :=
  match handlers with
  | [] => None
  | (c, h) :: rest => if isinstance e c then Some (h e)
                      else select_handler rest e
  end.

Definition try_except {A} (body : M A)
  (handlers : list (ExcClass * (PyExc -> M A))) : M A :=
  fun w =>
    match body w with
    | (Raised e, w') =>
        match select_handler handlers e with
        | Some h => h w'
        | None => (Raised e, w')
        end
    | other => other
    end.

(** [asyncio.Semaphore]: [acquire] takes a slot when one is free and waits
    otherwise; [release] gives one back. *)
Definition set_semaphore (n : nat) (w : World) : World :=
  {| total_requests_processed := total_requests_processed w;
     total_requests_blocked := total_requests_blocked w;
     semaphore := n;
     trace := trace w |}.

Definition acquire : M unit :=
  fun w =>
    match semaphore w with
    | O => (Blocked, w)
    | S n => emit Acquire (set_semaphore n w)
    end.

Definition release : M unit :=
  fun w => emit Release (set_semaphore (S (semaphore w)) w).

(** [async with semaphore: body]: [__aenter__] acquires, and [__aexit__]
    releases however the body ends. *)
Definition async_with_semaphore {A} (body : M A) : M A :=
  fun w =>
    match acquire w with
    | (Returned _, w1) =>
        match body w1 with
        | (Blocked, w2) => (Blocked, w2)
        | (r, w2) => (r, snd (release w2))
        end
    | (Raised e, w1) => (Raised e, w1)
    | (Blocked, w1) => (Blocked, w1)
    end.

End Gateway.

(** ** [proxy.py] *)

Module Proxy.
Import Py Gateway.
Local Open Scope gw_scope.

(** The backend as the gateway sees it: for an outbound request, how long
    it takes to answer (in milliseconds) and the answer, which is a response
    or a failure of the transport. *)
Definition Backend : Type := OutboundRequest -> Z * Result BackendResponse.

(** [client = httpx.AsyncClient(base_url=PRIMARY_BACKEND,
    follow_redirects=False, timeout=5.0)]: a call that is not answered
    within the timeout raises [httpx.ReadTimeout]. *)
Definition client_timeout_ms : Z := 5000.

Definition client_request (backend : Backend) (r : OutboundRequest)
  : M BackendResponse :=
  emit (BackendCall r) ;;;
  let '(delay, answer) := backend r in
  if (client_timeout_ms <? delay)%Z then raise (Exc ReadTimeout "")
  else await answer.

(** [request.client.host]: an [AttributeError] when [request.client] is
    [None]. *)
Definition client_host (request : Request) : M string :=
  match req_client request with
  | Some a => ret (host a)
  | None => raise (Exc AttributeError "'NoneType' object has no attribute 'host'")
  end.

(** Lines 23 to 33: the method, the URL, the headers and the body the
    backend is called with.  [request.url] is an object and always true,
    so [X-Forwarded-Proto] is always its scheme. *)
Definition outbound (request : Request) : OutboundRequest :=
  let url_path := url_path (req_url request) in
  let method := req_method request in
  let headers := req_headers request in
  let headers := delete "host" headers in
  let data := req_body request in
  let url_path :=
    if String.eqb (url_query (req_url request)) "" then url_path
    else url_path ++ "?" ++ url_query (req_url request) in
  let headers :=
    <["X-Forwarded-For" :=
        match req_client request with
        | Some a => host a
        | None => "unknown"
        end]> headers in
  let headers := <["X-Forwarded-Proto" := url_scheme (req_url request)]> headers in
  {| out_method := method;
     out_url := url_path;
     out_headers := headers;
     out_content := data |}.

(** Lines 44 to 49: the [Response] built from the backend's. *)
Definition response_of (backend_response : BackendResponse) : Result Response :=
  new_response
    (resp_content backend_response)
    (resp_status_code backend_response)
    (headers_items (resp_headers backend_response))
    (headers_get (resp_headers backend_response) "Content-Type" "application/json").

(** The [try] statement of [forward_proxy] (lines 22 to 59).  The second
    log line (line 35) reads [request.client.host] before the call is
    made. *)
Definition forward_body (backend : Backend) (request : Request) : M Response :=
  try_except
    (let out := outbound request in
     client_host request ;;;
     backend_response <- client_request backend out ;;
     await (response_of backend_response))
    [ (RequestError,
        fun e => raise (HTTPExc 503 "Backend service unavailable"));
      (TimeoutException,
        fun e => raise (HTTPExc 504 "Gateway timeout"));
      (Exception_,
        fun e => raise (HTTPExc 500 "Internal Gateway error")) ].

(** [forward_proxy]: the [try] statement under [async with semaphore]. *)
Definition forward_proxy (backend : Backend) (request : Request) : M Response :=
  async_with_semaphore (forward_body backend request).

End Proxy.

(** ** [main.py] *)

Module Main.
Import Py Gateway Proxy.
Local Open Scope gw_scope.

(** [is_rate_limited]: counts the request and answers [False]. *)
Definition is_rate_limited (client_ip : string) : M bool :=
  fun w =>
    (Returned false,
     {| total_requests_processed := total_requests_processed w + 1;
        total_requests_blocked := total_requests_blocked w;
        semaphore := semaphore w;
        trace := trace w |}).

(** The methods of the catch-all route. *)
Definition ROUTE_METHODS : list string :=
  ["GET"; "POST"; "PUT"; "DELETE"; "PATCH"; "HEAD"; "OPTIONS"].

(** [RATE_LIMITS[method]]: a [KeyError] for a method the table lacks. *)
Definition rate_limit_of (method : string) : M Z :=
  match Config.RATE_LIMITS !! method with
  | Some n => ret n
  | None => raise (Exc KeyError ("'" ++ method ++ "'"))
  end.

(** Lines 76 to 79: the branch taken when the limiter answers [True]. *)
Definition too_many_requests (request : Request) : M Response :=
  limit <- rate_limit_of (req_method request) ;;
  raise (HTTPExc 429
           ("Too Many Requests. Limit: " ++ str_of_int limit
            ++ " per " ++ str_of_int Config.TIME_WINDOW
            ++ "s. Please retry after " ++ str_of_int Config.TIME_WINDOW
            ++ " seconds.")).

(** [catch_all_proxy], with the limiter it awaits as an argument. *)
Definition catch_all_proxy_with (limiter : string -> M bool)
  (backend : Backend) (request : Request) : M Response :=
  client_ip <- client_host request ;;
  limited <- limiter client_ip ;;
  if (limited : bool) then too_many_requests request
  else forward_proxy backend request.

Definition catch_all_proxy : Backend -> Request -> M Response :=
  catch_all_proxy_with is_rate_limited.

(** A JSON value, for the dictionary [health_check] returns. *)
#[warnings="-register-all"]
Inductive Json : Type :=
  | JStr (s : string)
  | JInt (n : Z)
  | JObj (fields : list (string * Json)).

(** The store client: what awaiting [ping()] gives. *)
Record Redis : Type := { ping : Result bool }.

(** [backend_response.raise_for_status()], as the source's comment has it:
    an [HTTPStatusError] for a 4xx or 5xx response.  No handler reads the
    text of that exception, which is left empty. *)
Definition raise_for_status (code : Z) : M unit :=
  if ((400 <=? code)%Z && (code <=? 599)%Z)%bool
  then raise (StatusError code "")
  else ret tt.

(** Lines 90 to 99: the probe of the store. *)
Definition probe_redis (redis_client : option Redis) : M string :=
  try_except
    (match redis_client with
     | Some r => await (ping r) ;;; ret "Connected"
     | None => ret "Not Initialized"
     end)
    [ (Exception_, fun e => ret ("Disconnected: " ++ str_of_exc e)) ].

(** Lines 101 to 115: the probe of the backend.  [backend_get url] is what
    [client.get(url, timeout=2.0)] gives: the status code of the response,
    or the exception it raises. *)
Definition probe_backend (backend_get : string -> Result Z) : M string :=
  try_except
    (code <- await (backend_get (Config.PRIMARY_BACKEND ++ "/health")) ;;
     raise_for_status code ;;;
     ret "Connected")
    [ (RequestError,
        fun e => ret ("Disconnected (connection error): " ++ str_of_exc e));
      (HTTPStatusError,
        fun e => ret ("Connected (backend error status: "
                      ++ str_of_int (exc_status_code e) ++ ")"));
      (Exception_, fun e => ret ("Error: " ++ str_of_exc e)) ].

(** Lines 117 to 119. *)
Definition overall_status (redis_status backend_status : string) : string :=
  if (str_in "Disconnected" redis_status
      || str_in "Disconnected" backend_status
      || str_in "Error" backend_status)%bool
  then if (str_in "Connected" redis_status
           || str_in "Connected" backend_status)%bool
       then "DEGRADED" else "UNHEALTHY"
  else "OK".

(** [health_check]. *)
Definition health_check (redis_client : option Redis)
  (backend_get : string -> Result Z) : M Json :=
  redis_status <- probe_redis redis_client ;;
  backend_status <- probe_backend backend_get ;;
  fun w =>
    (Returned
       (JObj [ ("status", JStr (overall_status redis_status backend_status));
               ("redis_status", JStr redis_status);
               ("backend_status", JStr backend_status);
               ("metrics",
                 JObj [ ("total_requests_processed",
                          JInt (total_requests_processed w));
                        ("total_requests_blocked",
                          JInt (total_requests_blocked w)) ]) ]),
     w).

(** [d[key]] on such a dictionary. *)
Fixpoint field (key : string) (fields : list (string * Json)) : option Json :=
  match fields with
  | [] => None
  | (k, v) :: rest => if String.eqb k key then Some v else field key rest
  end.

Definition get_field (key : string) (j : Json) : option Json :=
  match j with
  | JObj fields => field key fields
  | _ => None
  end.

(** Serving requests one after the other. *)
Fixpoint serve (backend : Backend) (requests : list Request) (w : World)
  : list (Outcome Response) * World :=
  match requests with
  | [] => ([], w)
  | r :: rest =>
      let '(o, w1) := catch_all_proxy backend r w in
      let '(os, w2) := serve backend rest w1 in
      (o :: os, w2)
  end.

End Main.

(** ** Several invocations of [forward_proxy] at once *)

Module Scheduler.
Import Py Gateway Proxy.

(** One invocation of [forward_proxy], cut where the event loop can run
    another coroutine in between: before [semaphore.acquire()] has
    returned, inside the [try] statement with a slot held, and done. *)
Inductive Task : Type :=
  | Waiting (request : Request)
  | Holding (request : Request)
  | Finished (o : Outcome Response).

(** One move of one invocation: a waiting one takes a slot if one is free
    and keeps waiting otherwise; one that holds a slot runs the [try]
    statement to its end and gives the slot back. *)
Definition step (backend : Backend) (t : Task) (w : World) : Task * World :=
  match t with
  | Waiting request =>
      match acquire w with
      | (Returned _, w1) => (Holding request, w1)
      | _ => (Waiting request, w)
      end
  | Holding request =>
      match forward_body backend request w with
      | (Blocked, w2) => (Holding request, w2)
      | (o, w2) => (Finished o, snd (release w2))
      end
  | Finished o => (Finished o, w)
  end.

(** The event loop lets the invocation at position [i] move. *)
Definition step_at (backend : Backend) (i : nat) (st : list Task * World)
  : list Task * World :=
  match fst st !! i with
  | Some t =>
      let '(t', w') := step backend t (snd st) in
      (<[i := t']> (fst st), w')
  | None => st
  end.

(** A schedule is the order in which the event loop picks invocations. *)
Definition run (backend : Backend) (schedule : list nat)
  (st : list Task * World) : list Task * World :=
  fold_left (fun st i => step_at backend i st) schedule st.

Definition is_holding (t : Task) : bool :=
  match t with
  | Holding _ => true
  | _ => false
  end.

(** The invocations that hold a slot. *)
Definition in_flight (pool : list Task) : nat :=
  length (List.filter is_holding pool).

Definition is_acquire (ev : Event) : bool :=
  match ev with
  | Acquire => true
  | _ => false
  end.

Definition is_release (ev : Event) : bool :=
  match ev with
  | Release => true
  | _ => false
  end.

Definition acquired (events : list Event) : nat :=
  length (List.filter is_acquire events).

Definition released (events : list Event) : nat :=
  length (List.filter is_release events).

(** Slots are conserved: the free ones and the held ones add up to [cap],
    and every slot taken was given back or is still held. *)
Definition balanced (cap : nat) (st : list Task * World) : Prop :=
  (semaphore (snd st) + in_flight (fst st) = cap)%nat
  /\ (acquired (trace (snd st)) = released (trace (snd st)) + in_flight (fst st))%nat.

End Scheduler.

(** ** Definitions the properties are stated with *)

Module Views.
Import Py Gateway Proxy Main.
Local Open Scope gw_scope.

(** The world after the events [evs], with the semaphore where it was. *)
Definition after (w : World) (evs : list Event) : World :=
  {| total_requests_processed := total_requests_processed w;
     total_requests_blocked := total_requests_blocked w;
     semaphore := semaphore w;
     trace := trace w ++ evs |}.

(** What the [except] clauses of [forward_proxy] turn an exception into:
    the first clause takes every request error, the timeouts among them,
    and the last clause takes the rest. *)
Definition surfaced (e : PyExc) : PyExc :=
  if isinstance e RequestError
  then HTTPExc 503 "Backend service unavailable"
  else HTTPExc 500 "Internal Gateway error".

(** The outcome of the call once the slot is held. *)
Definition backend_outcome (backend : Backend) (request : Request)
  : Outcome Response :=
  let '(delay, answer) := backend (outbound request) in
  if (client_timeout_ms <? delay)%Z
  then Raised (HTTPExc 503 "Backend service unavailable")
  else match answer with
       | Ok r =>
           match response_of r with
           | Ok response => Returned response
           | Err e => Raised (surfaced e)
           end
       | Err e => Raised (surfaced e)
       end.

(** The outcome is a rejection: an [HTTPException] with status 429. *)
Definition is_429 (o : Outcome Response) : bool :=
  match o with
  | Raised e =>
      bool_decide (exc_type e = HTTPException) && (exc_status_code e =? 429)%Z
  | _ => false
  end.

(** The world after the check has counted a request. *)
Definition counted (w : World) : World :=
  {| total_requests_processed := total_requests_processed w + 1;
     total_requests_blocked := total_requests_blocked w;
     semaphore := semaphore w;
     trace := trace w |}.

(** The requests that reach the check, and the rejections among the
    outcomes. *)
Definition reaching (requests : list Request) : Z :=
  Z.of_nat (length (List.filter (fun r => bool_decide (is_Some (req_client r)))
                      requests)).

Definition rejections (outcomes : list (Outcome Response)) : Z :=
  Z.of_nat (length (List.filter is_429 outcomes)).


(** [f"{PRIMARY_BACKEND}/health"]. *)
Definition health_url : string := Config.PRIMARY_BACKEND ++ "/health".

(** The status string the probe of the store ends with. *)
Definition redis_status_of (redis_client : option Redis) : string :=
  match redis_client with
  | None => "Not Initialized"
  | Some r => match ping r with
              | Ok _ => "Connected"
              | Err e => "Disconnected: " ++ str_of_exc e
              end
  end.

(** The status codes [raise_for_status] raises for. *)
Definition is_error_status (code : Z) : bool :=
  ((400 <=? code)%Z && (code <=? 599)%Z)%bool.

(** The same for the backend, from what [client.get] gave. *)
Definition backend_status_of (answer : Result Z) : string :=
  match answer with
  | Ok code =>
      if is_error_status code
      then "Connected (backend error status: " ++ str_of_int code ++ ")"
      else "Connected"
  | Err e =>
      if isinstance e RequestError
      then "Disconnected (connection error): " ++ str_of_exc e
      else if isinstance e HTTPStatusError
           then "Connected (backend error status: "
                ++ str_of_int (exc_status_code e) ++ ")"
           else "Error: " ++ str_of_exc e
  end.

(** The dictionary [health_check] returns. *)
Definition report (redis_status backend_status : string) (w : World) : Json :=
  JObj [ ("status", JStr (overall_status redis_status backend_status));
         ("redis_status", JStr redis_status);
         ("backend_status", JStr backend_status);
         ("metrics",
           JObj [ ("total_requests_processed", JInt (total_requests_processed w));
                  ("total_requests_blocked", JInt (total_requests_blocked w)) ]) ].

(** The status the specification asks for, from which probes fail: the
    store probe fails when the ping raises, and the backend probe fails
    when the request raises or the answer is not a 2xx. *)
Definition store_probe_fails (r : Redis) : bool :=
  match ping r with
  | Ok _ => false
  | Err _ => true
  end.

Definition backend_probe_fails (answer : Result Z) : bool :=
  match answer with
  | Ok code => negb ((200 <=? code)%Z && (code <=? 299)%Z)
  | Err _ => true
  end.

Definition status_of_failures (store_fails backend_fails : bool) : string :=
  if (store_fails && backend_fails)%bool then "UNHEALTHY"
  else if (store_fails || backend_fails)%bool then "DEGRADED"
  else "OK".

(** What the code goes by: whether a dependency could be reached.  A
    backend that answers, be it with an error status, was reached. *)
Definition backend_unreachable (answer : Result Z) : bool :=
  match answer with
  | Ok _ => false
  | Err e => negb (isinstance e HTTPStatusError)
  end.

End Views.

(** ** Concrete requests, backends and stores *)

Module Samples.
Import Py Gateway Proxy Main.

(** A request from the peer [ip]; the rest does not matter to the check. *)
Definition request_from (method ip : string) : Request :=
  {| req_method := method;
     req_scheme := "http";
     req_server := Some ("127.0.0.1", 8000);
     req_path := "/users";
     req_query_string := "";
     req_raw_headers := [("host", "gateway.example")];
     req_client := Some {| host := ip; port := 50000 |};
     req_body := [] |}.

(** A backend that answers every request at once with an empty 200. *)
Definition quick_backend : Backend :=
  fun _ => (10, Ok {| resp_content := [];
                      resp_status_code := 200;
                      resp_headers := [("content-type", "application/json")] |}).

(** A request whose peer address the server could not tell. *)
Definition anonymous_request : Request :=
  {| req_method := "GET";
     req_scheme := "http";
     req_server := None;
     req_path := "/users";
     req_query_string := "";
     req_raw_headers := [];
     req_client := None;
     req_body := [] |}.

(** A limiter that rejects every request. *)
Definition rejecting_limiter : string -> M bool :=
  fun _ w => (Returned true, w).

(** A POST with a custom header, a body and a query string. *)
Definition peer : Address := {| host := "203.0.113.7"; port := 50000 |}.

Definition sample_request : Request :=
  {| req_method := "POST";
     req_scheme := "https";
     req_server := Some ("127.0.0.1", 8000);
     req_path := "/orders";
     req_query_string := "page=2";
     req_raw_headers := [("host", "gateway.example"); ("x-test", "abc")];
     req_client := Some peer;
     req_body := [Byte.x7b; Byte.x7d] |}.



(** A backend that takes six seconds to answer. *)
Definition slow_backend : Backend :=
  fun _ => (6000, Ok {| resp_content := [];
                        resp_status_code := 200;
                        resp_headers := [] |}).

(** A backend that refuses the connection. *)
Definition refusing_backend : Backend :=
  fun _ => (1, Err (Exc ConnectError "All connection attempts failed")).

(** A store that answers and a backend whose health route answers 500. *)
Definition live_store : Redis := {| ping := Ok true |}.
Definition failing_health : string -> Result Z := fun _ => Ok 500.

(** A store that refuses the connection, and a backend that does too. *)
Definition dead_store : Redis :=
  {| ping := Err (Exc RedisConnectionError
                    "Error 111 connecting to localhost:6379. Connection refused.") |}.

Definition dead_health : string -> Result Z :=
  fun _ => Err (Exc ConnectError "All connection attempts failed").

End Samples.

(** ** The routes of [main.py] *)

Module Routes.
Import Py Gateway Main.

(** What a route hands the request to: the two handlers of [main.py], or
    one of the routes the framework registers by itself. *)
Inductive Endpoint : Type :=
  | CatchAllProxy
  | HealthCheck
  | Builtin (name : string).

(** The path of a route: a literal path, or a literal followed by a
    [{path:path}] parameter.  Starlette compiles both to a regular
    expression anchored at both ends, the parameter standing for any run of
    characters, and matches with [re.match]: there, any character is any
    but a newline, and the end is the end of the path or the place before a
    newline that ends it. *)
Inductive PathPattern : Type :=
  | Literal (path : string)
  | ThenRest (literal : string).

Definition newline : ascii := ascii_of_nat 10.

(** [s] is a run of characters up to the end. *)
Fixpoint rest_matches (s : string) : bool :=
  match s with
  | EmptyString => true
  | String c rest =>
      if Ascii.eqb c newline
      then match rest with
           | EmptyString => true
           | _ => false
           end
      else rest_matches rest
  end.

(** What is left of [s] after the prefix [literal], if it starts with it. *)
Fixpoint strip_prefix (literal s : string) : option string :=
  match literal with
  | EmptyString => Some s
  | String c literal' =>
      match s with
      | EmptyString => None
      | String d s' => if Ascii.eqb c d then strip_prefix literal' s' else None
      end
  end.

Definition path_matches (pattern : PathPattern) (path : string) : bool :=
  match pattern with
  | Literal literal =>
      match strip_prefix literal path with
      | Some rest => String.eqb rest "" || String.eqb rest (String newline "")
      | None => false
      end
  | ThenRest literal =>
      match strip_prefix literal path with
      | Some rest => rest_matches rest
      | None => false
      end
  end.

Record Route : Type := {
  route_path : PathPattern;
  route_methods : list string;
  route_endpoint : Endpoint
}.

(** [Route.matches]: the path and the method match, only the path does, or
    nothing does. *)
Inductive Match : Type :=
  | NoMatch
  | PartialMatch
  | FullMatch.

Definition matches (r : Route) (method path : string) : Match :=
  if path_matches (route_path r) path
  then if existsb (String.eqb method) (route_methods r)
       then FullMatch else PartialMatch
  else NoMatch.

(** The two routes of [main.py], in the order their decorators run
    (lines 71 and 84). *)
Definition catch_all_route : Route :=
  {| route_path := ThenRest "/";
     route_methods := ROUTE_METHODS;
     route_endpoint := CatchAllProxy |}.

Definition health_route : Route :=
  {| route_path := Literal "/health";
     route_methods := ["GET"];
     route_endpoint := HealthCheck |}.

Definition routes : list Route := [catch_all_route; health_route].

(** [Router.app]: the routes are tried in order; the first full match
    handles the request; failing that, the first partial match answers 405;
    when no route matches, the router answers by itself (a redirect to the
    path with or without its last slash, or a 404). *)
Inductive Dispatch : Type :=
  | Handle (e : Endpoint)
  | MethodNotAllowed
  | NoRoute.

Fixpoint dispatch_from (rs : list Route) (partial : bool)
  (method path : string) : Dispatch :=
  match rs with
  | [] => if partial then MethodNotAllowed else NoRoute
  | r :: rest =>
      match matches r method path with
      | FullMatch => Handle (route_endpoint r)
      | PartialMatch => dispatch_from rest true method path
      | NoMatch => dispatch_from rest partial method path
      end
  end.

Definition dispatch (rs : list Route) : string -> string -> Dispatch :=
  dispatch_from rs false.

End Routes.

(** ** Startup and shutdown ([main.py], lines 38 to 58) *)

Module Lifecycle.
Import Py Gateway Main.

(** The global [redis_client], and how often its [close()] was awaited. *)
Record App : Type := {
  redis_client : option Redis;
  close_calls : nat
}.

(** The application before [start] has run. *)
Definition fresh : App := {| redis_client := None; close_calls := 0 |}.

(** [start], with [connection] the client [redis.from_url(REDIS_URL)]
    makes.  The global is assigned before the ping; a
    [redis.ConnectionError] is turned into an [HTTPException], and any
    other exception goes through. *)
Definition start (connection : Redis) (app : App) : Outcome unit * App :=
  let app := {| redis_client := Some connection;
                close_calls := close_calls app |} in
  match ping connection with
  | Ok _ => (Returned tt, app)
  | Err e =>
      if isinstance e RedisConnectionError
      then (Raised (HTTPExc 500 "Redis connection failed"), app)
      else (Raised e, app)
  end.

(** [shutdown], with [closing] what awaiting [redis_client.close()] gives.
    The global is left as it is. *)
Definition shutdown (closing : Result unit) (app : App) : Outcome unit * App :=
  match redis_client app with
  | Some _ =>
      let app := {| redis_client := redis_client app;
                    close_calls := S (close_calls app) |} in
      match closing with
      | Ok _ => (Returned tt, app)
      | Err e => (Raised e, app)
      end
  | None => (Returned tt, app)
  end.

End Lifecycle.

(** ** Further definitions the properties are stated with *)

Module MoreViews.
Import Py Gateway Proxy Main Views.

(** The request [request] with a [host] header line of value [value]
    before its other header lines. *)
Definition with_host (value : string) (request : Request) : Request :=
  {| req_method := req_method request;
     req_scheme := req_scheme request;
     req_server := req_server request;
     req_path := req_path request;
     req_query_string := req_query_string request;
     req_raw_headers := ("host", value) :: req_raw_headers request;
     req_client := req_client request;
     req_body := req_body request |}.

(** The outcome is one the client of the gateway can be given by
    [forward_proxy]: the backend's response, or one of the two fixed
    errors. *)
Definition is_forward_outcome (o : Outcome Response) : Prop :=
  o = Blocked
  \/ (exists r response, response_of r = Ok response /\ o = Returned response)
  \/ o = Raised (HTTPExc 503 "Backend service unavailable")
  \/ o = Raised (HTTPExc 500 "Internal Gateway error").

(** A request that carries an [x-forwarded-for] header of its own. *)
Definition spoofing_request : Request :=
  {| req_method := "GET";
     req_scheme := "http";
     req_server := Some ("127.0.0.1", 8000);
     req_path := "/users";
     req_query_string := "";
     req_raw_headers := [("host", "gateway.example");
                         ("x-forwarded-for", "10.0.0.1")];
     req_client := Some {| host := "203.0.113.7"; port := 50000 |};
     req_body := [] |}.

(** A store whose failure text has the word the handler looks for. *)
Definition reset_store : Redis :=
  {| ping := Err (Exc RedisConnectionError "Connected peer reset the link") |}.

(** A backend health route that cannot be reached. *)
Definition unreachable_health : string -> Result Z :=
  fun _ => Err (Exc ConnectError "All connection attempts failed").

(** A store that refuses the connection. *)
Definition refusing_store : Redis :=
  {| ping := Err (Exc RedisConnectionError "Connection refused.") |}.

(** The network location in the string of [request.url]: the value of the
    first [host] header line, or the server's address when there is no such
    line. *)
Definition url_location (request : Request) : option string :=
  match first_value "host" (req_raw_headers request) with
  | Some host_header => Some host_header
  | None =>
      match req_server request with
      | None => None
      | Some (host, port) =>
          if bool_decide (default_port (req_scheme request) = Some port)
          then Some host
          else Some (host ++ ":" ++ str_of_int port)
      end
  end.

(** A plain network location: it is in ASCII and has none of the
    delimiters [/], [?] and [#], no tab, line feed or carriage return, and
    no bracket. *)
Definition is_plain_host_char (c : ascii) : bool :=
  let n := nat_of_ascii c in
  negb (is_delimiter c || is_unsafe c || (n =? 91)%nat || (n =? 93)%nat)
  && (n <? 128)%nat.

Definition plain_host (value : string) : bool :=
  all_chars is_plain_host_char value.

(** A path that starts with a slash and has no [?], no [#] and no tab,
    line feed or carriage return; a query string without [#] and without
    those three. *)
Definition is_plain_path_char (c : ascii) : bool :=
  negb (is_char "?" c || is_char "#" c || is_unsafe c).

Definition plain_path (path : string) : bool :=
  match path with
  | String c _ => is_char "/" c
  | EmptyString => false
  end && all_chars is_plain_path_char path.

Definition is_plain_query_char (c : ascii) : bool :=
  negb (is_char "#" c || is_unsafe c).

Definition plain_query (query : string) : bool :=
  all_chars is_plain_query_char query.

(** The header lines have their names in lower case. *)
Definition lower_names (raw : list (string * string)) : Prop :=
  Forall (fun kv => lower (fst kv) = fst kv) raw.







Definition host_with_path_request : Request :=
  {| req_method := "GET";
     req_scheme := "http";
     req_server := Some ("127.0.0.1", 8000);
     req_path := "/users";
     req_query_string := "page=2";
     req_raw_headers := [("host", "gateway.example/admin?x=")];
     req_client := Some {| host := "203.0.113.7"; port := 50000 |};
     req_body := [] |}.



Definition euro : string :=
  String (ascii_of_nat 226) (String (ascii_of_nat 130) (String (ascii_of_nat 172) "")).

Definition priced : BackendResponse :=
  {| resp_content := [];
     resp_status_code := 200;
     resp_headers := [("x-price", euro)] |}.

Definition pricing_backend : Backend := fun _ => (15, Ok priced).



(** One of the routes FastAPI registers before those of [main.py]. *)
Definition docs_route : Routes.Route :=
  {| Routes.route_path := Routes.Literal "/docs";
     Routes.route_methods := ["GET"; "HEAD"];
     Routes.route_endpoint := Routes.Builtin "swagger_ui_html" |}.

End MoreViews.

(** ** Facts about the runtime *)

Module PyFacts.
Import Py.

(** Every class is an [Exception]. *)
Lemma issubclass_Exception (c : ExcClass) : issubclass c Exception_ = true.
Proof. destruct c; reflexivity. Qed.

Lemma isinstance_Exception (e : PyExc) : isinstance e Exception_ = true.
Proof. apply issubclass_Exception. Qed.

(** httpx's timeouts are transport errors, hence request errors. *)
Lemma timeout_is_request_error (c : ExcClass) :
  issubclass c TimeoutException = true -> issubclass c RequestError = true.
Proof. destruct c; simpl; intros H; first [reflexivity | discriminate H]. Qed.

(** A status error is no request error. *)
Lemma status_error_not_request_error :
  issubclass HTTPStatusError RequestError = false.
Proof. reflexivity. Qed.

Lemma char_free_app (c : ascii) (s t : string) :
  char_free c (s ++ t) = (char_free c s && char_free c t)%bool.
Proof.
  induction s as [|d s IH]; simpl; [reflexivity|].
  rewrite IH. now rewrite andb_assoc.
Qed.

(** A needle whose first character is nowhere in the hay is not found. *)
Lemma str_in_char_free (c : ascii) (needle hay : string) :
  char_free c hay = true -> str_in (String c needle) hay = false.
Proof.
  induction hay as [|d hay IH]; simpl; intros H; [reflexivity|].
  apply andb_prop in H as [Hd Hrest].
  destruct (ascii_dec c d) as [->|Hne].
  - rewrite Ascii.eqb_refl in Hd. discriminate Hd.
  - apply IH. exact Hrest.
Qed.

Lemma char_free_uint (c : ascii) (d : Decimal.uint) :
  (nat_of_ascii c <? 48)%nat || (57 <? nat_of_ascii c)%nat = true ->
  char_free c (NilEmpty.string_of_uint d) = true.
Proof.
  intros Hc.
  assert (Hd : forall d, (48 <= nat_of_ascii d <= 57)%nat ->
                         negb (Ascii.eqb c d) = true).
  { intros k Hk. apply negb_true_iff, Ascii.eqb_neq. intros ->.
    apply orb_prop in Hc as [H|H]; apply Nat.ltb_lt in H; lia. }
  induction d; simpl; [reflexivity| ..]; rewrite IHd, andb_true_r;
    apply Hd; cbv; lia.
Qed.

(** A capital letter never occurs in the decimal writing of an integer. *)
Lemma char_free_str_of_int (c : ascii) (n : Z) :
  (57 <? nat_of_ascii c)%nat = true -> char_free c (str_of_int n) = true.
Proof.
  intros Hc. unfold str_of_int, NilZero.string_of_int.
  assert (Hu : forall d, char_free c (NilZero.string_of_uint d) = true).
  { intros d. unfold NilZero.string_of_uint.
    destruct d; try (apply (char_free_uint c); rewrite Hc; apply orb_true_r).
    simpl. rewrite andb_true_r. apply negb_true_iff, Ascii.eqb_neq.
    intros ->. discriminate Hc. }
  destruct (Z.to_int n) as [d|d]; [apply Hu|].
  simpl. rewrite Hu, andb_true_r. apply negb_true_iff, Ascii.eqb_neq.
  intros ->. discriminate Hc.
Qed.

End PyFacts.

(** ** Facts about [forward_proxy] *)

Module ProxyFacts.
Import Py Gateway Proxy Views PyFacts.
Local Open Scope gw_scope.

Lemma forward_handlers (e : PyExc) :
  select_handler
    [ (RequestError,
        fun _ : PyExc => raise (A := Response) (HTTPExc 503 "Backend service unavailable"));
      (TimeoutException,
        fun _ : PyExc => raise (HTTPExc 504 "Gateway timeout"));
      (Exception_,
        fun _ : PyExc => raise (HTTPExc 500 "Internal Gateway error")) ] e
  = Some (raise (surfaced e)).
Proof.
  unfold surfaced. simpl.
  destruct (isinstance e RequestError) eqn:Hreq; [reflexivity|].
  destruct (isinstance e TimeoutException) eqn:Htime.
  - apply timeout_is_request_error in Htime.
    unfold isinstance in Hreq. congruence.
  - now rewrite isinstance_Exception.
Qed.

(** Once the slot is held and the peer is known, the body calls the
    backend once with [outbound request]. *)
Lemma forward_body_known_client backend request a w :
  req_client request = Some a ->
  forward_body backend request w =
    (backend_outcome backend request,
     after w [BackendCall (outbound request)]).
Proof.
  intros Hclient.
  unfold forward_body, try_except, bind, client_host, client_request,
    backend_outcome.
  rewrite Hclient. cbn [ret emit bind].
  destruct (backend (outbound request)) as [delay answer].
  destruct (client_timeout_ms <? delay)%Z; [| destruct answer as [r|e]];
    cbn -[select_handler response_of];
    try destruct (response_of r) as [response|e];
    cbn -[select_handler]; rewrite ?forward_handlers; reflexivity.
Qed.

(** With no known peer the log line fails and no call is made. *)
Lemma forward_body_unknown_client backend request w :
  req_client request = None ->
  forward_body backend request w =
    (Raised (HTTPExc 500 "Internal Gateway error"), w).
Proof.
  intros Hclient.
  unfold forward_body, try_except, bind, client_host.
  rewrite Hclient. cbn -[select_handler].
  now rewrite forward_handlers.
Qed.

Lemma backend_outcome_not_Blocked backend request :
  backend_outcome backend request <> Blocked.
Proof.
  unfold backend_outcome.
  destruct (backend (outbound request)) as [delay answer].
  destruct (client_timeout_ms <? delay)%Z; [discriminate|].
  destruct answer as [r|e]; [destruct (response_of r)|]; discriminate.
Qed.

(** With a free slot and a known peer, [forward_proxy] takes the slot,
    calls the backend once with [outbound request] and gives the slot
    back. *)
Lemma forward_proxy_known_client backend request a w :
  semaphore w <> O ->
  req_client request = Some a ->
  forward_proxy backend request w =
    (backend_outcome backend request,
     after w [Acquire; BackendCall (outbound request); Release]).
Proof.
  intros Hfree Hclient.
  unfold forward_proxy, async_with_semaphore, acquire.
  destruct (semaphore w) as [|n] eqn:Hsem; [congruence|].
  cbn [emit]. rewrite (forward_body_known_client _ _ a) by assumption.
  pose proof (backend_outcome_not_Blocked backend request) as Hout.
  destruct (backend_outcome backend request) as [r|e|]; [| |congruence];
    unfold after, release, emit, set_semaphore; cbn;
    rewrite Hsem, <- ?app_assoc; reflexivity.
Qed.

(** With a free slot and no known peer, the log line fails after the slot
    is taken: no call is made, the slot is given back, and the failure is
    surfaced as a 500. *)
Lemma forward_proxy_unknown_client backend request w :
  semaphore w <> O ->
  req_client request = None ->
  forward_proxy backend request w =
    (Raised (HTTPExc 500 "Internal Gateway error"),
     after w [Acquire; Release]).
Proof.
  intros Hfree Hclient.
  unfold forward_proxy, async_with_semaphore, acquire.
  destruct (semaphore w) as [|n] eqn:Hsem; [congruence|].
  cbn [emit]. rewrite forward_body_unknown_client by assumption.
  unfold after, release, emit, set_semaphore. cbn.
  rewrite Hsem, <- app_assoc. reflexivity.
Qed.

(** Without a free slot the coroutine waits and nothing happens. *)
Lemma forward_proxy_no_slot backend request w :
  semaphore w = O -> forward_proxy backend request w = (Blocked, w).
Proof.
  intros Hsem. unfold forward_proxy, async_with_semaphore, acquire.
  now rewrite Hsem.
Qed.

End ProxyFacts.

(** ** The rate-limit check and the catch-all route *)

Module RateLimit.
Import Py Gateway Proxy Main Views Samples PyFacts ProxyFacts.
Local Open Scope gw_scope.

Lemma catch_all_proxy_known_client backend request a w :
  req_client request = Some a ->
  catch_all_proxy backend request w = forward_proxy backend request (counted w).
Proof.
  intros Hclient.
  unfold catch_all_proxy, catch_all_proxy_with, bind, client_host.
  now rewrite Hclient.
Qed.

Lemma catch_all_proxy_unknown_client backend request w :
  req_client request = None ->
  catch_all_proxy backend request w =
    (Raised (Exc AttributeError "'NoneType' object has no attribute 'host'"), w).
Proof.
  intros Hclient.
  unfold catch_all_proxy, catch_all_proxy_with, bind, client_host.
  now rewrite Hclient.
Qed.

Lemma surfaced_not_429 (e : PyExc) : is_429 (Raised (surfaced e)) = false.
Proof. unfold surfaced. now destruct (isinstance e RequestError). Qed.

Lemma backend_outcome_not_429 backend request :
  is_429 (backend_outcome backend request) = false.
Proof.
  unfold backend_outcome.
  destruct (backend (outbound request)) as [delay answer].
  destruct (client_timeout_ms <? delay)%Z; [reflexivity|].
  destruct answer as [r|e]; [destruct (response_of r) as [response|e]|];
    first [reflexivity | apply surfaced_not_429].
Qed.

(** [forward_proxy] leaves the two counters alone and never answers 429. *)
Lemma forward_proxy_counters backend request w :
  let '(o, w') := forward_proxy backend request w in
  is_429 o = false
  /\ total_requests_processed w' = total_requests_processed w
  /\ total_requests_blocked w' = total_requests_blocked w.
Proof.
  destruct (semaphore w) as [|n] eqn:Hsem.
  - now rewrite forward_proxy_no_slot.
  - destruct (req_client request) as [a|] eqn:Hclient.
    + rewrite (forward_proxy_known_client _ _ a) by (congruence || assumption).
      split; [apply backend_outcome_not_429 | now split].
    + rewrite forward_proxy_unknown_client by (congruence || assumption).
      now repeat split.
Qed.

(** No request is ever rejected by the route, whatever came before it. *)
Lemma catch_all_proxy_never_429 backend request w :
  is_429 (fst (catch_all_proxy backend request w)) = false.
Proof.
  destruct (req_client request) as [a|] eqn:Hclient.
  - rewrite (catch_all_proxy_known_client _ _ a) by assumption.
    pose proof (forward_proxy_counters backend request (counted w)) as H.
    destruct (forward_proxy backend request (counted w)) as [o w'].
    apply H.
  - now rewrite catch_all_proxy_unknown_client.
Qed.

Lemma serve_never_429 backend requests w :
  Forall (fun o => is_429 o = false) (fst (serve backend requests w)).
Proof.
  revert w. induction requests as [|r rest IH]; intros w; simpl.
  - constructor.
  - pose proof (catch_all_proxy_never_429 backend r w) as Hr.
    destruct (catch_all_proxy backend r w) as [o w1].
    specialize (IH w1).
    destruct (serve backend rest w1) as [os w2].
    constructor; assumption.
Qed.

(** C1 (the code departs from it).  The limit for GET is five requests per
    window, so the sixth GET of one client within a window should be
    rejected with a 429.  In the code the check answers [False] for every
    request: of six GET requests of one client served in a row, the sixth is
    forwarded and answered 200 like the five before it, and the check has
    counted six requests and blocked none. *)
Theorem sixth_request_is_admitted :
  Config.RATE_LIMITS !! "GET" = Some 5
  /\ (let '(outcomes, w) :=
        serve quick_backend (repeat (request_from "GET" "203.0.113.7") 6)
          initial_world in
      map is_429 outcomes = [false; false; false; false; false; false]
      /\ (exists r, nth_error outcomes 5 = Some (Returned r) /\ status_code r = 200)
      /\ total_requests_processed w = 6
      /\ total_requests_blocked w = 0).
Proof.
  split; [reflexivity|].
  vm_compute. repeat split. eexists. split; reflexivity.
Qed.

(** Through the route, a request is counted when its peer is known, and
    the blocked counter moves with the 429s. *)
Lemma catch_all_proxy_counters backend request w :
  let '(o, w') := catch_all_proxy backend request w in
  total_requests_processed w' =
    total_requests_processed w
    + match req_client request with Some _ => 1 | None => 0 end
  /\ total_requests_blocked w' =
       total_requests_blocked w + (if is_429 o then 1 else 0).
Proof.
  destruct (req_client request) as [a|] eqn:Hclient.
  - rewrite (catch_all_proxy_known_client _ _ a) by assumption.
    pose proof (forward_proxy_counters backend request (counted w)) as H.
    destruct (forward_proxy backend request (counted w)) as [o w'].
    destruct H as (Ho & Hp & Hb). rewrite Ho, Hp, Hb. simpl. split; lia.
  - rewrite catch_all_proxy_unknown_client by assumption.
    simpl. split; lia.
Qed.

(** Over a run of requests the counters add up. *)
Lemma serve_counters backend requests w :
  let '(outcomes, w') := serve backend requests w in
  total_requests_processed w' = total_requests_processed w + reaching requests
  /\ total_requests_blocked w' = total_requests_blocked w + rejections outcomes.
Proof.
  revert w. induction requests as [|r rest IH]; intros w.
  - unfold reaching, rejections. cbn. split; lia.
  - cbn [serve].
    pose proof (catch_all_proxy_counters backend r w) as Hr.
    destruct (catch_all_proxy backend r w) as [o w1].
    specialize (IH w1).
    destruct (serve backend rest w1) as [os w2].
    destruct Hr as [Hp Hb], IH as [IHp IHb].
    unfold reaching, rejections in *. cbn [List.filter].
    destruct (req_client r) as [a|]; destruct (is_429 o); cbn [length];
      rewrite ?bool_decide_eq_true_2 by (now eexists);
      rewrite ?bool_decide_eq_false_2 by (intros [? ?]; discriminate);
      cbn [length]; split; lia.
Qed.

(** C3.  Every call of [is_rate_limited] adds one to
    [total_requests_processed], and adds one to [total_requests_blocked]
    exactly when it answers [True]; through the route, a request that
    reaches the check (its peer address is known) is counted once whatever
    its outcome, and the blocked counter moves by one exactly when the
    outcome is a 429.  (The check never answers [True], so in this code the
    blocked counter never moves.) *)
Theorem counters_move_once_per_request backend request w client_ip :
  (exists limited w',
      is_rate_limited client_ip w = (Returned limited, w')
      /\ total_requests_processed w' = total_requests_processed w + 1
      /\ total_requests_blocked w' =
           total_requests_blocked w + (if limited then 1 else 0))
  /\ (let '(o, w') := catch_all_proxy backend request w in
      total_requests_processed w' =
        total_requests_processed w
        + match req_client request with Some _ => 1 | None => 0 end
      /\ total_requests_blocked w' =
           total_requests_blocked w + (if is_429 o then 1 else 0)).
Proof.
  split.
  - exists false. eexists. split; [reflexivity|]. simpl. split; lia.
  - apply catch_all_proxy_counters.
Qed.

(** C8 (the code departs from it).  When the peer address is unknown
    ([request.client] is [None]) the route does not fall back to the
    identity ["unknown"]: reading [request.client.host] raises an
    [AttributeError] before the check is reached, nothing is counted and
    nothing is forwarded.  Only the [X-Forwarded-For] line of
    [forward_proxy] has the fallback, and there the next line reads
    [request.client.host] again, so that a direct call ends in a 500 with no
    backend call made. *)
Theorem unknown_client_is_not_served backend request w :
  req_client request = None ->
  catch_all_proxy backend request w =
    (Raised (Exc AttributeError "'NoneType' object has no attribute 'host'"), w)
  /\ out_headers (outbound request) !! "X-Forwarded-For" = Some "unknown"
  /\ (semaphore w <> O ->
      forward_proxy backend request w =
        (Raised (HTTPExc 500 "Internal Gateway error"),
         after w [Acquire; Release])).
Proof.
  intros Hclient. split; [| split].
  - now apply catch_all_proxy_unknown_client.
  - unfold outbound. rewrite Hclient. cbn [out_headers].
    rewrite lookup_insert_ne by discriminate.
    apply lookup_insert_eq.
  - intros Hfree. now apply forward_proxy_unknown_client.
Qed.

Lemma unknown_client_is_not_served_witness :
  req_client anonymous_request = None
  /\ catch_all_proxy quick_backend anonymous_request initial_world =
       (Raised (Exc AttributeError "'NoneType' object has no attribute 'host'"),
        initial_world).
Proof.
  split; [reflexivity|].
  apply (unknown_client_is_not_served quick_backend anonymous_request initial_world).
  reflexivity.
Defined.

End RateLimit.

(** ** The rejection branch of the route *)

Module Rejection.
Import Py Gateway Proxy Main Views Samples.
Local Open Scope gw_scope.

Lemma unlisted_methods (method : string) :
  In method ROUTE_METHODS ->
  (Config.RATE_LIMITS !! method = None
   <-> In method ["PATCH"; "HEAD"; "OPTIONS"]).
Proof.
  unfold ROUTE_METHODS. intros Hin.
  repeat (destruct Hin as [<-|Hin]; [vm_compute; intuition discriminate|]).
  destruct Hin.
Qed.

(** For a method of the table the branch raises the 429 of the
    specification. *)
Lemma too_many_requests_listed request w :
  In (req_method request) ["GET"; "POST"; "PUT"; "DELETE"] ->
  too_many_requests request w =
    (Raised (HTTPExc 429
       "Too Many Requests. Limit: 5 per 60s. Please retry after 60 seconds."),
     w).
Proof.
  intros Hin. unfold too_many_requests, bind, rate_limit_of.
  repeat (destruct Hin as [<-|Hin]; [reflexivity|]).
  destruct Hin.
Qed.

(** C9.  The route accepts PATCH, HEAD and OPTIONS, and the table of limits
    has no entry for them.  So whenever the limiter answers [True] for a
    request with one of these methods, formatting the detail of the 429
    raises a [KeyError] on [RATE_LIMITS[request.method]], and the route ends
    with that error, not with the 429. *)
Theorem rejection_of_unlisted_method_raises_KeyError
  (limiter : string -> M bool) backend request a w w1 :
  In (req_method request) ["PATCH"; "HEAD"; "OPTIONS"] ->
  req_client request = Some a ->
  limiter (host a) w = (Returned true, w1) ->
  In (req_method request) ROUTE_METHODS
  /\ Config.RATE_LIMITS !! req_method request = None
  /\ catch_all_proxy_with limiter backend request w =
       (Raised (Exc KeyError ("'" ++ req_method request ++ "'")), w1).
Proof.
  intros Hin Hclient Hlimited.
  assert (Hroute : In (req_method request) ROUTE_METHODS).
  { unfold ROUTE_METHODS. simpl in *. intuition. }
  assert (Hnone : Config.RATE_LIMITS !! req_method request = None).
  { now apply unlisted_methods. }
  repeat split; [assumption.. |].
  unfold catch_all_proxy_with, bind, client_host.
  rewrite Hclient. cbn [ret]. rewrite Hlimited.
  unfold too_many_requests, bind, rate_limit_of.
  now rewrite Hnone.
Qed.

Lemma rejection_of_unlisted_method_raises_KeyError_witness :
  In "PATCH" ["PATCH"; "HEAD"; "OPTIONS"]
  /\ req_client (request_from "PATCH" "203.0.113.7")
     = Some {| host := "203.0.113.7"; port := 50000 |}
  /\ rejecting_limiter "203.0.113.7" initial_world = (Returned true, initial_world)
  /\ catch_all_proxy_with rejecting_limiter quick_backend
       (request_from "PATCH" "203.0.113.7") initial_world
     = (Raised (Exc KeyError "'PATCH'"), initial_world).
Proof.
  split; [left; reflexivity|].
  split; [reflexivity|].
  split; [reflexivity|].
  apply (rejection_of_unlisted_method_raises_KeyError rejecting_limiter
           quick_backend
           (request_from "PATCH" "203.0.113.7")
           {| host := "203.0.113.7"; port := 50000 |}
           initial_world initial_world).
  - left; reflexivity.
  - reflexivity.
  - reflexivity.
Defined.

End Rejection.

(** ** Facts about requests, URLs and header lists *)

Module RequestFacts.
Import Py Gateway Proxy Main Views MoreViews.

Lemma append_cons (c : ascii) (a b : string) :
  String c a ++ b = String c (a ++ b).
Proof. reflexivity. Qed.

Lemma append_nil_r (a : string) : a ++ "" = a.
Proof.
  induction a as [|c a IH]; [reflexivity|]. now rewrite append_cons, IH.
Qed.

Lemma append_assoc (a b c : string) : (a ++ b) ++ c = a ++ (b ++ c).
Proof.
  induction a as [|d a IH]; [reflexivity|]. now rewrite !append_cons, IH.
Qed.

Lemma all_chars_app (p : ascii -> bool) (a b : string) :
  all_chars p (a ++ b) = all_chars p a && all_chars p b.
Proof.
  induction a as [|c a IH]; [reflexivity|].
  rewrite append_cons. cbn [all_chars]. now rewrite IH, andb_assoc.
Qed.

Lemma all_chars_impl (p q : ascii -> bool) (s : string) :
  (forall c, p c = true -> q c = true) ->
  all_chars p s = true -> all_chars q s = true.
Proof.
  intros Hpq. induction s as [|c s IH]; [reflexivity|].
  cbn [all_chars]. intros H. apply andb_prop in H as [Hc Hs].
  now rewrite (Hpq c Hc), IH.
Qed.

Lemma remove_app (p : ascii -> bool) (a b : string) :
  remove p (a ++ b) = remove p a ++ remove p b.
Proof.
  induction a as [|c a IH]; [reflexivity|].
  rewrite append_cons. cbn [remove].
  destruct (p c); [exact IH | now rewrite append_cons, IH].
Qed.

Lemma remove_none (p : ascii -> bool) (s : string) :
  all_chars (fun c => negb (p c)) s = true -> remove p s = s.
Proof.
  induction s as [|c s IH]; [reflexivity|].
  cbn [all_chars remove]. intros H. apply andb_prop in H as [Hc Hs].
  apply negb_true_iff in Hc. now rewrite Hc, IH.
Qed.

Lemma break_at_none (p : ascii -> bool) (s : string) :
  all_chars (fun c => negb (p c)) s = true -> break_at p s = (s, "").
Proof.
  induction s as [|c s IH]; [reflexivity|].
  cbn [all_chars break_at]. intros H. apply andb_prop in H as [Hc Hs].
  apply negb_true_iff in Hc. now rewrite Hc, IH.
Qed.

Lemma break_at_hit (p : ascii -> bool) (a : string) (c : ascii) (rest : string) :
  all_chars (fun c => negb (p c)) a = true ->
  p c = true ->
  break_at p (a ++ String c rest) = (a, String c rest).
Proof.
  intros Ha Hc. induction a as [|d a IH].
  - change ("" ++ String c rest) with (String c rest).
    cbn [break_at]. now rewrite Hc.
  - cbn [all_chars] in Ha. apply andb_prop in Ha as [Hd Ha].
    apply negb_true_iff in Hd.
    rewrite append_cons. cbn [break_at]. now rewrite Hd, IH.
Qed.

Lemma plain_host_char c :
  is_plain_host_char c = true -> is_delimiter c = false /\ is_unsafe c = false.
Proof.
  unfold is_plain_host_char. intros H. apply andb_prop in H as [H _].
  apply negb_true_iff in H.
  apply orb_false_iff in H as [H _]. apply orb_false_iff in H as [H _].
  apply orb_false_iff in H as [Hdelimiter Hunsafe]. now split.
Qed.

Lemma plain_path_char c :
  is_plain_path_char c = true ->
  is_char "?" c = false /\ is_char "#" c = false /\ is_unsafe c = false.
Proof.
  unfold is_plain_path_char. intros H. apply negb_true_iff in H.
  apply orb_false_iff in H as [H Hunsafe].
  apply orb_false_iff in H as [Hmark Hhash]. now repeat split.
Qed.

Lemma plain_query_char c :
  is_plain_query_char c = true -> is_char "#" c = false /\ is_unsafe c = false.
Proof.
  unfold is_plain_query_char. intros H. apply negb_true_iff in H.
  apply orb_false_iff in H as [H ?]. now split.
Qed.

(** How [urlsplit] reads a URL made of a scheme of HTTP, a plain network
    location, a plain path and an empty or plain query string: it gives
    them back. *)
Lemma urlsplit_plain (scheme location path query : string) :
  scheme = "http" \/ scheme = "https" ->
  plain_host location = true ->
  plain_path path = true ->
  plain_query query = true ->
  urlsplit (scheme ++ "://" ++ location ++ path
            ++ (if String.eqb query "" then "" else "?" ++ query))
  = {| sr_scheme := scheme;
       sr_netloc := location;
       sr_path := path;
       sr_query := query;
       sr_fragment := "" |}.
Proof.
  intros Hscheme Hhost Hpath Hquery.
  unfold plain_host in Hhost. unfold plain_query in Hquery.
  unfold plain_path in Hpath. apply andb_prop in Hpath as [Hslash Hpath].
  destruct path as [|slash path']; [discriminate Hslash|].
  assert (slash = "/"%char) as ->.
  { symmetry. now apply Ascii.eqb_eq. }
  set (qs := if String.eqb query "" then "" else "?" ++ query).
  assert (Hqs_unsafe : all_chars (fun c => negb (is_unsafe c)) qs = true).
  { subst qs. destruct (String.eqb query ""); [reflexivity|].
    change ("?" ++ query) with (String "?" query). cbn [all_chars].
    apply andb_true_intro. split; [reflexivity|].
    eapply all_chars_impl; [|exact Hquery].
    intros c Hc. apply plain_query_char in Hc as [_ ->]. reflexivity. }
  assert (Hqs_hash : all_chars (fun c => negb (is_char "#" c)) qs = true).
  { subst qs. destruct (String.eqb query ""); [reflexivity|].
    change ("?" ++ query) with (String "?" query). cbn [all_chars].
    apply andb_true_intro. split; [reflexivity|].
    eapply all_chars_impl; [|exact Hquery].
    intros c Hc. apply plain_query_char in Hc as [-> _]. reflexivity. }
  assert (Hpath_unsafe : all_chars (fun c => negb (is_unsafe c)) (String "/" path') = true).
  { eapply all_chars_impl; [|exact Hpath].
    intros c Hc. apply plain_path_char in Hc as (_ & _ & ->). reflexivity. }
  assert (Hpath_hash : all_chars (fun c => negb (is_char "#" c)) (String "/" path') = true).
  { eapply all_chars_impl; [|exact Hpath].
    intros c Hc. apply plain_path_char in Hc as (_ & -> & _). reflexivity. }
  assert (Hpath_mark : all_chars (fun c => negb (is_char "?" c)) (String "/" path') = true).
  { eapply all_chars_impl; [|exact Hpath].
    intros c Hc. apply plain_path_char in Hc as (-> & _ & _). reflexivity. }
  assert (Hhost_unsafe : all_chars (fun c => negb (is_unsafe c)) location = true).
  { eapply all_chars_impl; [|exact Hhost].
    intros c Hc. apply plain_host_char in Hc as [_ ->]. reflexivity. }
  assert (Hhost_delim : all_chars (fun c => negb (is_delimiter c)) location = true).
  { eapply all_chars_impl; [|exact Hhost].
    intros c Hc. apply plain_host_char in Hc as [-> _]. reflexivity. }
  assert (Hrest : remove is_unsafe (location ++ String "/" path' ++ qs)
                  = location ++ String "/" path' ++ qs).
  { apply remove_none. rewrite !all_chars_app.
    now rewrite Hhost_unsafe, Hpath_unsafe, Hqs_unsafe. }
  assert (Hnetloc : break_at is_delimiter (location ++ String "/" path' ++ qs)
                    = (location, String "/" path' ++ qs)).
  { rewrite append_cons. now apply break_at_hit. }
  assert (Hfragment : break_at (is_char "#") (String "/" path' ++ qs)
                      = (String "/" path' ++ qs, "")).
  { apply break_at_none. rewrite all_chars_app.
    now rewrite Hpath_hash, Hqs_hash. }
  assert (Hquery' : break_at (is_char "?") (String "/" path' ++ qs)
                    = (String "/" path', qs) /\ tail qs = query).
  { subst qs. destruct (String.eqb_spec query "") as [->|Hne].
    - rewrite append_nil_r. split; [now apply break_at_none | reflexivity].
    - change ("?" ++ query) with (String "?" query).
      split; [now apply break_at_hit | reflexivity]. }
  destruct Hquery' as [Hquery' Htail].
  assert (Hstart : remove is_unsafe
                     (lstrip is_c0_or_space
                        (scheme ++ "://" ++ location ++ String "/" path' ++ qs))
                   = scheme ++ "://" ++ location ++ String "/" path' ++ qs).
  { transitivity (scheme ++ "://"
                  ++ remove is_unsafe (location ++ String "/" path' ++ qs)).
    - destruct Hscheme as [-> | ->]; reflexivity.
    - now rewrite Hrest. }
  assert (Hsplit : split_scheme
                     (scheme ++ "://" ++ location ++ String "/" path' ++ qs)
                   = (scheme,
                      String "/" (String "/" (location ++ String "/" path' ++ qs)))).
  { destruct Hscheme as [-> | ->]; reflexivity. }
  unfold urlsplit. rewrite Hstart, Hsplit.
  cbv beta iota zeta. unfold split_netloc. rewrite Hnetloc.
  cbv beta iota zeta. unfold split_at. rewrite Hfragment.
  cbv beta iota zeta. rewrite Hquery'.
  cbv beta iota zeta. now rewrite Htail.
Qed.

(** *** [dict(request.headers)] *)

Lemma dict_fold_lookup (raw l : list (string * string)) (k : string) :
  lower_names l ->
  fold_right
    (fun kv d =>
       match headers_getitem raw (fst kv) with
       | Some v => <[fst kv := v]> d
       | None => d
       end) (∅ : gmap string string) l !! k
  = match first_value k l with
    | Some _ => first_value k raw
    | None => None
    end.
Proof.
  intros Hlower. induction Hlower as [|[k' v] l Hk' _ IH]; [reflexivity|].
  cbn [fold_right first_value fst]. cbn [fst] in Hk'.
  unfold headers_getitem at 1. rewrite Hk'.
  destruct (String.eqb_spec k' k) as [->|Hne].
  - destruct (first_value k raw) as [v'|] eqn:Hraw.
    + apply lookup_insert_eq.
    + rewrite IH. now destruct (first_value k l).
  - destruct (first_value k' raw) as [v'|].
    + rewrite lookup_insert_ne by assumption. exact IH.
    + exact IH.
Qed.

(** With names in lower case, the dictionary has for each name the first
    value of the header lines. *)
Lemma dict_of_headers_lookup (raw : list (string * string)) (k : string) :
  lower_names raw -> dict_of_headers raw !! k = first_value k raw.
Proof.
  intros Hlower. unfold dict_of_headers.
  rewrite dict_fold_lookup by assumption.
  now destruct (first_value k raw).
Qed.


(** *** [httpx.Headers.items()] and the headers of a [Response] *)

Lemma first_value_app (name : string) (l1 l2 : list (string * string)) :
  first_value name (l1 ++ l2) =
    match first_value name l1 with
    | Some v => Some v
    | None => first_value name l2
    end.
Proof.
  induction l1 as [|[k v] l1 IH]; [reflexivity|].
  cbn [app first_value]. now destruct (String.eqb k name).
Qed.

















Lemma encode_headers_error (items : list (string * string)) (e : PyExc) :
  encode_headers items = Err e -> e = Exc UnicodeEncodeError "".
Proof.
  induction items as [|[k v] items IH]; [discriminate|].
  cbn [encode_headers].
  destruct (encodes_latin1 (lower k) && encodes_latin1 v);
    [|now intros [= <-]].
  destruct (encode_headers items) as [raw|e']; [discriminate|].
  intros [= <-]. now apply IH.
Qed.

(** An exception of [Response(...)] is a [UnicodeEncodeError]. *)
Lemma response_of_error (resp : BackendResponse) (e : PyExc) :
  response_of resp = Err e -> e = Exc UnicodeEncodeError "".
Proof.
  unfold response_of, new_response.
  destruct (encode_headers _) as [raw|e'] eqn:Hencode.
  - repeat match goal with
           | |- context [if ?b then _ else _] => destruct b
           end; try discriminate; now intros [= <-].
  - intros [= <-]. now apply (encode_headers_error _ _ Hencode).
Qed.








(** *** [request.url] and [request.headers] of a well-formed request *)

Lemma url_string_location (request : Request) (location : string) :
  url_location request = Some location ->
  url_string request =
    req_scheme request ++ "://" ++ location ++ req_path request
    ++ (if String.eqb (req_query_string request) "" then ""
        else "?" ++ req_query_string request).
Proof.
  unfold url_location, url_string. cbv zeta.
  destruct (first_value "host" (req_raw_headers request)) as [h|].
  - intros [= ->].
    destruct (String.eqb (req_query_string request) "");
      [now rewrite append_nil_r | now rewrite !append_assoc].
  - destruct (req_server request) as [[server_host server_port]|];
      [|discriminate].
    destruct (bool_decide _); intros [= <-];
      destruct (String.eqb (req_query_string request) "");
      rewrite ?append_nil_r, ?append_assoc; reflexivity.
Qed.

(** The URL of a request with a plain network location, path and query
    string has the path, the query string and the scheme of the scope. *)
Lemma req_url_plain (request : Request) (location : string) :
  req_scheme request = "http" \/ req_scheme request = "https" ->
  url_location request = Some location ->
  plain_host location = true ->
  plain_path (req_path request) = true ->
  plain_query (req_query_string request) = true ->
  req_url request =
    {| url_path := req_path request;
       url_query := req_query_string request;
       url_scheme := req_scheme request |}.
Proof.
  intros Hscheme Hlocation Hhost Hpath Hquery. unfold req_url.
  rewrite (url_string_location _ location) by assumption.
  now rewrite urlsplit_plain.
Qed.

Lemma req_headers_lookup (request : Request) (k : string) :
  lower_names (req_raw_headers request) ->
  req_headers request !! k = first_value k (req_raw_headers request).
Proof. apply dict_of_headers_lookup. Qed.

End RequestFacts.

(** ** Forwarding *)

Module Forwarding.
Import Py Gateway Proxy Main Views Samples MoreViews PyFacts ProxyFacts
  RequestFacts.
Local Open Scope gw_scope.

(** *** The request sent to the backend *)





(** The URL of the call is read off the [host] header too: a value with a
    slash in it moves the path of the request into the query. *)
Lemma host_header_reaches_the_forwarded_url :
  req_path host_with_path_request = "/users"
  /\ req_query_string host_with_path_request = "page=2"
  /\ exists out,
       trace (snd (catch_all_proxy quick_backend host_with_path_request
                     initial_world))
         = [Acquire; BackendCall out; Release]
       /\ out_url out = "/admin?x=/users?page=2".
Proof.
  split; [reflexivity|]. split; [reflexivity|].
  exists (outbound host_with_path_request). split; reflexivity.
Qed.



(** *** The response given back *)




(** What [forward_proxy] does with an answer that came in time. *)
Lemma forward_proxy_answered backend request a w delay resp :
  req_client request = Some a ->
  semaphore w <> O ->
  backend (outbound request) = (delay, Ok resp) ->
  (delay <= client_timeout_ms)%Z ->
  forward_proxy backend request w =
    (match response_of resp with
     | Ok response => Returned response
     | Err e => Raised (surfaced e)
     end,
     after w [Acquire; BackendCall (outbound request); Release]).
Proof.
  intros Hclient Hfree Hbackend Hdelay.
  rewrite (forward_proxy_known_client _ _ a) by assumption.
  unfold backend_outcome. rewrite Hbackend.
  replace (client_timeout_ms <? delay)%Z with false
    by (symmetry; apply Z.ltb_ge; exact Hdelay).
  reflexivity.
Qed.


(** Nor is every answer of the backend relayed: a header value outside
    latin-1 makes [Response(...)] raise inside the [try], and the gateway
    answers 500 although the backend answered 200. *)
Lemma unencodable_header_is_answered_500 :
  pricing_backend (outbound sample_request) = (15, Ok priced)
  /\ resp_status_code priced = 200
  /\ forward_proxy pricing_backend sample_request initial_world =
       (Raised (HTTPExc 500 "Internal Gateway error"),
        after initial_world
          [Acquire; BackendCall (outbound sample_request); Release]).
Proof.
  split; [reflexivity|]. split; [reflexivity|].
  now rewrite (forward_proxy_answered _ _ peer _ 15 priced).
Qed.



(** *** Failures of the backend call *)

(** A transport failure is answered 503, and any failure that is no
    request error is answered 500. *)
Lemma backend_failure_is_classified backend request a w delay e :
  req_client request = Some a ->
  semaphore w <> O ->
  backend (outbound request) = (delay, Err e) ->
  (delay <= client_timeout_ms)%Z ->
  fst (forward_proxy backend request w) =
    Raised (if isinstance e RequestError
            then HTTPExc 503 "Backend service unavailable"
            else HTTPExc 500 "Internal Gateway error").
Proof.
  intros Hclient Hfree Hbackend Hdelay.
  rewrite (forward_proxy_known_client _ _ a) by assumption.
  unfold backend_outcome. rewrite Hbackend.
  replace (client_timeout_ms <? delay)%Z with false
    by (symmetry; apply Z.ltb_ge; exact Hdelay).
  reflexivity.
Qed.

(** No path of [forward_proxy] ends in a 504: the clause that raises it
    comes after the clause for [httpx.RequestError], which takes every
    timeout first. *)
Lemma forward_proxy_never_504 backend request w detail :
  fst (forward_proxy backend request w) <> Raised (HTTPExc 504 detail).
Proof.
  destruct (semaphore w) as [|n] eqn:Hsem.
  - now rewrite forward_proxy_no_slot.
  - destruct (req_client request) as [a|] eqn:Hclient.
    + rewrite (forward_proxy_known_client _ _ a) by (congruence || assumption).
      unfold backend_outcome. cbn [fst].
      destruct (backend (outbound request)) as [delay answer].
      destruct (client_timeout_ms <? delay)%Z; [discriminate|].
      destruct answer as [r|e]; [destruct (response_of r) as [response|e]|];
        [discriminate | |];
        unfold surfaced; destruct (isinstance e RequestError); discriminate.
    + rewrite forward_proxy_unknown_client by (congruence || assumption).
      discriminate.
Qed.

(** C2 (the code departs from it).  A backend call that outlasts the
    five-second timeout should be answered 504.  In the code the exception
    httpx raises then is a [TimeoutException], which is also a
    [RequestError]; the clause for [RequestError] comes first, so the
    gateway answers 503 with detail [Backend service unavailable]. *)
Theorem backend_timeout_is_answered_503 backend request a w delay answer :
  req_client request = Some a ->
  semaphore w <> O ->
  backend (outbound request) = (delay, answer) ->
  (client_timeout_ms < delay)%Z ->
  isinstance (Exc ReadTimeout "") TimeoutException = true
  /\ isinstance (Exc ReadTimeout "") RequestError = true
  /\ fst (forward_proxy backend request w) =
       Raised (HTTPExc 503 "Backend service unavailable").
Proof.
  intros Hclient Hfree Hbackend Hdelay.
  split; [reflexivity|]. split; [reflexivity|].
  rewrite (forward_proxy_known_client _ _ a) by assumption.
  unfold backend_outcome. rewrite Hbackend.
  replace (client_timeout_ms <? delay)%Z with true
    by (symmetry; apply Z.ltb_lt; exact Hdelay).
  reflexivity.
Qed.

Lemma backend_timeout_is_answered_503_witness :
  req_client sample_request = Some peer
  /\ semaphore initial_world <> O
  /\ (client_timeout_ms < 6000)%Z
  /\ fst (catch_all_proxy slow_backend sample_request initial_world) =
       Raised (HTTPExc 503 "Backend service unavailable").
Proof.
  split; [reflexivity|]. split; [discriminate|]. split; [reflexivity|].
  rewrite (RateLimit.catch_all_proxy_known_client _ _ peer) by reflexivity.
  apply (backend_timeout_is_answered_503 slow_backend sample_request peer
           (counted initial_world) 6000
           (Ok {| resp_content := []; resp_status_code := 200;
                  resp_headers := [] |}));
    [reflexivity | discriminate | reflexivity | reflexivity].
Defined.

(** *** The semaphore *)



(** The slots survive any run of requests, failed or not, so the next
    request still finds the slots it would have found at the start. *)
Lemma serve_keeps_slots backend requests w :
  semaphore (snd (serve backend requests w)) = semaphore w.
Proof.
  revert w. induction requests as [|r rest IH]; intros w; [reflexivity|].
  simpl.
  assert (Hr : semaphore (snd (catch_all_proxy backend r w)) = semaphore w).
  { destruct (req_client r) as [a|] eqn:Hclient.
    - rewrite (RateLimit.catch_all_proxy_known_client _ _ a) by assumption.
      destruct (semaphore w) as [|n] eqn:Hsem.
      + now rewrite forward_proxy_no_slot.
      + rewrite (forward_proxy_known_client _ _ a);
          [simpl; now symmetry | simpl; congruence | assumption].
    - now rewrite RateLimit.catch_all_proxy_unknown_client. }
  destruct (catch_all_proxy backend r w) as [o w1].
  specialize (IH w1).
  destruct (serve backend rest w1) as [os w2].
  simpl in *. congruence.
Qed.

End Forwarding.

(** ** The health endpoint *)

Module Health.
Import Py Gateway Proxy Main Views Samples PyFacts.
Local Open Scope gw_scope.

Lemma probe_redis_returns redis_client w :
  probe_redis redis_client w = (Returned (redis_status_of redis_client), w).
Proof.
  unfold probe_redis, try_except, redis_status_of.
  destruct redis_client as [r|]; [|reflexivity].
  unfold bind, await. destruct (ping r) as [b|e]; [reflexivity|].
  cbn -[isinstance]. now rewrite isinstance_Exception.
Qed.

Lemma probe_backend_returns backend_get w :
  probe_backend backend_get w =
    (Returned (backend_status_of (backend_get health_url)), w).
Proof.
  unfold probe_backend, try_except, backend_status_of, bind, await.
  fold health_url.
  destruct (backend_get health_url) as [code|e].
  - cbn. unfold raise_for_status. fold (is_error_status code).
    destruct (is_error_status code); reflexivity.
  - cbn -[isinstance]. destruct (isinstance e RequestError); [reflexivity|].
    destruct (isinstance e HTTPStatusError); [reflexivity|].
    now rewrite isinstance_Exception.
Qed.

Lemma health_check_returns redis_client backend_get w :
  health_check redis_client backend_get w =
    (Returned (report (redis_status_of redis_client)
                 (backend_status_of (backend_get health_url)) w),
     w).
Proof.
  unfold health_check, bind.
  now rewrite probe_redis_returns, probe_backend_returns.
Qed.

(** C10.  [health_check] returns for every store client (initialised or
    not), every answer or failure of the ping and every answer or failure
    of the backend probe: it raises nothing, waits on nothing and leaves
    the process state as it is.  The dictionary it returns has the four
    fields [status], [redis_status], [backend_status] and [metrics]; a
    failed ping is told in [redis_status] with the text of its exception,
    and a failed backend probe in [backend_status], with the text of the
    exception or the status code of the response. *)
Theorem health_check_is_total redis_client backend_get w :
  exists status redis_status backend_status,
    health_check redis_client backend_get w =
      (Returned
         (JObj [ ("status", JStr status);
                 ("redis_status", JStr redis_status);
                 ("backend_status", JStr backend_status);
                 ("metrics",
                   JObj [ ("total_requests_processed",
                            JInt (total_requests_processed w));
                          ("total_requests_blocked",
                            JInt (total_requests_blocked w)) ]) ]),
       w)
    /\ status = overall_status redis_status backend_status
    /\ match redis_client with
       | None => redis_status = "Not Initialized"
       | Some r =>
           match ping r with
           | Ok _ => redis_status = "Connected"
           | Err e => redis_status = "Disconnected: " ++ str_of_exc e
           end
       end
    /\ match backend_get (Config.PRIMARY_BACKEND ++ "/health") with
       | Ok code =>
           backend_status = "Connected"
           \/ backend_status =
                "Connected (backend error status: " ++ str_of_int code ++ ")"
       | Err e =>
           backend_status = "Disconnected (connection error): " ++ str_of_exc e
           \/ backend_status =
                "Connected (backend error status: "
                ++ str_of_int (exc_status_code e) ++ ")"
           \/ backend_status = "Error: " ++ str_of_exc e
       end.
Proof.
  exists (overall_status (redis_status_of redis_client)
            (backend_status_of (backend_get health_url))),
         (redis_status_of redis_client),
         (backend_status_of (backend_get health_url)).
  split; [apply health_check_returns|]. split; [reflexivity|]. split.
  - unfold redis_status_of. destruct redis_client as [r|]; [|reflexivity].
    destruct (ping r); reflexivity.
  - fold health_url. unfold backend_status_of.
    destruct (backend_get health_url) as [code|e].
    + destruct (is_error_status code); [now right | now left].
    + destruct (isinstance e RequestError); [now left|].
      destruct (isinstance e HTTPStatusError); [right; now left | right; now right].
Qed.

(** *** The overall status *)

(** C6, as stated, fails: with the store up and the backend answering its
    health route with a 500, exactly one probe fails, yet the overall
    status is [OK], not [DEGRADED]. *)
Lemma health_is_OK_when_backend_answers_500 :
  store_probe_fails live_store = false
  /\ backend_probe_fails (failing_health health_url) = true
  /\ status_of_failures (store_probe_fails live_store)
       (backend_probe_fails (failing_health health_url)) = "DEGRADED"
  /\ health_check (Some live_store) failing_health initial_world =
       (Returned
          (JObj [ ("status", JStr "OK");
                  ("redis_status", JStr "Connected");
                  ("backend_status", JStr "Connected (backend error status: 500)");
                  ("metrics",
                    JObj [ ("total_requests_processed", JInt 0);
                           ("total_requests_blocked", JInt 0) ]) ]),
        initial_world).
Proof. repeat split. Qed.

Lemma str_in_prefix (needle hay : string) :
  String.prefix needle hay = true -> str_in needle hay = true.
Proof. intros H. destruct hay; cbn [str_in]; now rewrite H. Qed.

(** Skipping a stretch of the hay that lacks the needle's first letter. *)
Lemma str_in_skip (c : ascii) (needle skipped hay : string) :
  char_free c skipped = true ->
  str_in (String c needle) (skipped ++ hay) = str_in (String c needle) hay.
Proof.
  induction skipped as [|d skipped IH]; intros H; [reflexivity|].
  simpl in H. apply andb_prop in H as [Hd Hrest].
  change (String d skipped ++ hay) with (String d (skipped ++ hay)).
  change (str_in (String c needle) (String d (skipped ++ hay)))
    with (if (if ascii_dec c d then String.prefix needle (skipped ++ hay)
              else false)
          then true
          else str_in (String c needle) (skipped ++ hay)).
  destruct (ascii_dec c d) as [->|Hne].
  - rewrite Ascii.eqb_refl in Hd. discriminate Hd.
  - now apply IH.
Qed.

Lemma error_status_text (code : Z) :
  let text := "Connected (backend error status: " ++ str_of_int code ++ ")" in
  str_in "Disconnected" text = false
  /\ str_in "Error" text = false
  /\ str_in "Connected" text = true.
Proof.
  cbv zeta. split; [| split].
  - apply str_in_char_free. rewrite !char_free_app, char_free_str_of_int;
      reflexivity.
  - apply str_in_char_free. rewrite !char_free_app, char_free_str_of_int;
      reflexivity.
  - apply str_in_prefix. reflexivity.
Qed.

Lemma overall_status_store_up (backend_status : string) :
  overall_status "Connected" backend_status =
    if (str_in "Disconnected" backend_status || str_in "Error" backend_status)%bool
    then "DEGRADED" else "OK".
Proof.
  unfold overall_status.
  change (str_in "Disconnected" "Connected") with false.
  change (str_in "Connected" "Connected") with true.
  reflexivity.
Qed.

Lemma overall_status_store_down (text backend_status : string) :
  str_in "Connected" text = false ->
  overall_status ("Disconnected: " ++ text) backend_status =
    if str_in "Connected" backend_status then "DEGRADED" else "UNHEALTHY".
Proof.
  intros Htext. unfold overall_status.
  rewrite (str_in_prefix "Disconnected") by reflexivity.
  rewrite (str_in_skip _ _ "Disconnected: ") by reflexivity.
  now rewrite Htext.
Qed.

(** C6, amended.  With an initialised store client, the overall status is
    [UNHEALTHY] when the ping raises and the backend could not be reached
    (the request raised a connection error or an unexpected one),
    [DEGRADED] when exactly one of the two happens, and [OK] when neither
    does; a backend that answers with an error status counts as reached,
    and [backend_status] then reads [Connected (backend error status: N)]
    with its status code.  The dictionary carries the two counters as they
    are.  This is for exception texts without the word [Connected], which
    is what the code looks for in the status strings. *)
Theorem health_status_follows_reachability r backend_get w :
  (forall e, ping r = Err e -> str_in "Connected" (str_of_exc e) = false) ->
  (forall e, backend_get (Config.PRIMARY_BACKEND ++ "/health") = Err e ->
             str_in "Connected" (str_of_exc e) = false) ->
  exists j,
    health_check (Some r) backend_get w = (Returned j, w)
    /\ get_field "status" j =
         Some (JStr (status_of_failures (store_probe_fails r)
                       (backend_unreachable
                          (backend_get (Config.PRIMARY_BACKEND ++ "/health")))))
    /\ get_field "metrics" j =
         Some (JObj [ ("total_requests_processed",
                        JInt (total_requests_processed w));
                      ("total_requests_blocked",
                        JInt (total_requests_blocked w)) ])
    /\ (forall code,
          backend_get (Config.PRIMARY_BACKEND ++ "/health") = Ok code ->
          (400 <= code <= 599)%Z ->
          get_field "backend_status" j =
            Some (JStr ("Connected (backend error status: "
                        ++ str_of_int code ++ ")"))).
Proof.
  fold health_url. intros Hstore Hbackend.
  eexists. split; [apply health_check_returns|].
  split; [| split; [reflexivity|]]; cycle 1.
  { intros code Hcode [Hlow Hhigh].
    cbn [get_field report field String.eqb Ascii.eqb Bool.eqb].
    unfold backend_status_of. rewrite Hcode. unfold is_error_status.
    apply Z.leb_le in Hlow. apply Z.leb_le in Hhigh.
    now rewrite Hlow, Hhigh. }
  cbn [get_field report field String.eqb Ascii.eqb Bool.eqb].
  do 2 f_equal.
  unfold redis_status_of, store_probe_fails, backend_status_of,
    backend_unreachable.
  destruct (ping r) as [b|e].
  - rewrite overall_status_store_up.
    destruct (backend_get health_url) as [code|e'].
    + destruct (is_error_status code).
      * destruct (error_status_text code) as (-> & -> & _). reflexivity.
      * reflexivity.
    + destruct (isinstance e' RequestError) eqn:Hreq.
      * rewrite (str_in_prefix "Disconnected") by reflexivity.
        assert (Hstatus : isinstance e' HTTPStatusError = false).
        { unfold isinstance in *. destruct (exc_type e'); try reflexivity;
            discriminate Hreq. }
        now rewrite Hstatus.
      * destruct (isinstance e' HTTPStatusError).
        -- destruct (error_status_text (exc_status_code e')) as (-> & -> & _).
           reflexivity.
        -- rewrite (str_in_prefix "Error") by reflexivity.
           now rewrite orb_true_r.
  - rewrite overall_status_store_down by (now apply Hstore).
    destruct (backend_get health_url) as [code|e'].
    + destruct (is_error_status code).
      * destruct (error_status_text code) as (_ & _ & ->). reflexivity.
      * reflexivity.
    + specialize (Hbackend e' eq_refl).
      destruct (isinstance e' RequestError) eqn:Hreq.
      * assert (Hstatus : isinstance e' HTTPStatusError = false).
        { unfold isinstance in *. destruct (exc_type e'); try reflexivity;
            discriminate Hreq. }
        rewrite Hstatus.
        rewrite (str_in_skip _ _ "Disconnected (connection error): ")
          by reflexivity.
        now rewrite Hbackend.
      * destruct (isinstance e' HTTPStatusError).
        -- destruct (error_status_text (exc_status_code e')) as (_ & _ & ->).
           reflexivity.
        -- rewrite (str_in_skip _ _ "Error: ") by reflexivity.
           now rewrite Hbackend.
Qed.

Lemma health_status_follows_reachability_witness :
  (forall e, ping dead_store = Err e -> str_in "Connected" (str_of_exc e) = false)
  /\ (forall e, dead_health (Config.PRIMARY_BACKEND ++ "/health") = Err e ->
                str_in "Connected" (str_of_exc e) = false)
  /\ exists j,
       health_check (Some dead_store) dead_health initial_world
         = (Returned j, initial_world)
       /\ get_field "status" j = Some (JStr "UNHEALTHY").
Proof.
  assert (Hstore : forall e, ping dead_store = Err e ->
                             str_in "Connected" (str_of_exc e) = false).
  { intros e [= <-]. reflexivity. }
  assert (Hbackend : forall e,
             dead_health (Config.PRIMARY_BACKEND ++ "/health") = Err e ->
             str_in "Connected" (str_of_exc e) = false).
  { intros e [= <-]. reflexivity. }
  split; [exact Hstore|]. split; [exact Hbackend|].
  destruct (health_status_follows_reachability dead_store dead_health
              initial_world Hstore Hbackend) as (j & Hrun & Hstatus & _).
  exists j. split; [exact Hrun | exact Hstatus].
Defined.

End Health.

(** ** Interleaved invocations *)

Module Concurrency.
Import Py Gateway Proxy Main Scheduler Views Samples PyFacts ProxyFacts.

Lemma in_flight_cons (t : Task) (pool : list Task) :
  in_flight (t :: pool) =
    ((if is_holding t then 1 else 0) + in_flight pool)%nat.
Proof. unfold in_flight. simpl. now destruct (is_holding t). Qed.

Lemma in_flight_insert (pool : list Task) (i : nat) (t t' : Task) :
  pool !! i = Some t ->
  (in_flight (<[i := t']> pool) + (if is_holding t then 1 else 0)
   = in_flight pool + (if is_holding t' then 1 else 0))%nat.
Proof.
  revert i. induction pool as [|x pool IH]; intros i Hi; [discriminate Hi|].
  destruct i as [|i].
  - injection Hi as ->.
    change (<[0%nat := t']> (t :: pool)) with (t' :: pool).
    rewrite !in_flight_cons. lia.
  - change (<[S i := t']> (x :: pool)) with (x :: <[i := t']> pool).
    rewrite !in_flight_cons. specialize (IH i Hi). lia.
Qed.

(** The [try] statement neither takes nor gives back a slot, and ends. *)
Lemma forward_body_keeps_slots backend request w :
  let '(o, w') := forward_body backend request w in
  o <> Blocked
  /\ semaphore w' = semaphore w
  /\ acquired (trace w') = acquired (trace w)
  /\ released (trace w') = released (trace w).
Proof.
  destruct (req_client request) as [a|] eqn:Hclient.
  - rewrite (forward_body_known_client _ _ a) by assumption.
    split; [apply backend_outcome_not_Blocked|].
    unfold after, acquired, released. cbn [semaphore trace].
    rewrite !List.filter_app, !List.length_app. cbn. repeat split; lia.
  - rewrite forward_body_unknown_client by assumption.
    repeat split. discriminate.
Qed.

(** Alone and with a free slot, an invocation does in two moves what
    [forward_proxy] does. *)
Lemma two_steps_are_forward_proxy backend request w :
  semaphore w <> O ->
  let '(t1, w1) := step backend (Waiting request) w in
  step backend t1 w1 =
    (Finished (fst (forward_proxy backend request w)),
     snd (forward_proxy backend request w)).
Proof.
  intros Hfree. unfold forward_proxy, async_with_semaphore.
  cbn [step]. unfold acquire.
  destruct (semaphore w) as [|n] eqn:Hsem; [congruence|].
  cbn [emit step].
  match goal with
  | |- context [forward_body backend request ?w1] =>
      pose proof (forward_body_keeps_slots backend request w1) as Hbody;
      destruct (forward_body backend request w1) as [[r|e|] w2]
  end; [reflexivity | reflexivity | now destruct Hbody].
Qed.

Lemma step_at_balanced backend cap i st :
  balanced cap st -> balanced cap (step_at backend i st).
Proof.
  destruct st as [pool w]. unfold balanced, step_at. cbn [fst snd].
  intros [Hslots Hevents].
  destruct (pool !! i) as [t|] eqn:Hi; [|now split].
  destruct t as [request|request|o]; cbn [step].
  - unfold acquire. destruct (semaphore w) as [|n] eqn:Hsem.
    + cbn [fst snd]. rewrite list_insert_id by assumption.
      rewrite Hsem. now split.
    + cbn [emit fst snd set_semaphore semaphore trace].
      pose proof (in_flight_insert pool i _ (Holding request) Hi) as Hins.
      cbn [is_holding] in Hins. unfold acquired, released in *.
      rewrite !List.filter_app, !List.length_app. cbn. split; lia.
  - pose proof (forward_body_keeps_slots backend request w) as Hbody.
    destruct (forward_body backend request w) as [o w2].
    destruct Hbody as (Hend & Hsem & Hacq & Hrel).
    pose proof (in_flight_insert pool i _ (Finished o) Hi) as Hins.
    cbn [is_holding] in Hins.
    destruct o as [r|e|]; [| |congruence];
      unfold release, emit, set_semaphore; cbn [fst snd semaphore trace];
      unfold acquired, released in *;
      rewrite !List.filter_app, !List.length_app; cbn; split; lia.
  - cbn [fst snd]. rewrite list_insert_id by assumption. now split.
Qed.

Lemma run_balanced backend cap schedule st :
  balanced cap st -> balanced cap (run backend schedule st).
Proof.
  revert st. induction schedule as [|i schedule IH]; intros st Hst;
    [exact Hst|].
  cbn [run fold_left]. apply IH. now apply step_at_balanced.
Qed.

Lemma in_flight_Waiting (requests : list Request) :
  in_flight (map Waiting requests) = O.
Proof. induction requests as [|r rest IH]; [reflexivity | exact IH]. Qed.

(** X9.  However the event loop interleaves any number of invocations,
    started with all slots free: at most [MAX_CONCURRENT_REQUESTS] of them hold a
    slot at any time, and the slots taken are the slots given back plus the
    ones still held. *)
Lemma in_flight_is_bounded backend schedule (requests : list Request) :
  let '(pool, w) :=
    run backend schedule (map Waiting requests, initial_world) in
  (in_flight pool <= Config.MAX_CONCURRENT_REQUESTS)%nat
  /\ (semaphore w + in_flight pool = Config.MAX_CONCURRENT_REQUESTS)%nat
  /\ (acquired (trace w) = released (trace w) + in_flight pool)%nat.
Proof.
  assert (Hinit : balanced Config.MAX_CONCURRENT_REQUESTS
                    (map Waiting requests, initial_world)).
  { unfold balanced. cbn [fst snd]. rewrite in_flight_Waiting. now split. }
  apply (run_balanced backend _ schedule) in Hinit.
  destruct (run backend schedule (map Waiting requests, initial_world))
    as [pool w].
  destruct Hinit as [Hslots Hevents]. cbn [fst snd] in *.
  repeat split; [lia | assumption | assumption].
Qed.

End Concurrency.

(** ** More on the route and on forwarding *)

Module ForwardingMore.
Import Py Gateway Proxy Main Views Samples MoreViews PyFacts ProxyFacts
  RequestFacts.
Local Open Scope gw_scope.

(** X1.  When the limiter answers [True] the route ends at once: with the
    429 whose detail names the limit of the method and the window, or with
    the [KeyError] of a method the table lacks.  The state is the one the
    limiter left, so no slot was taken and the backend was not called. *)
Theorem rejection_makes_no_backend_call
  (limiter : string -> M bool) backend request a w w1 :
  req_client request = Some a ->
  limiter (host a) w = (Returned true, w1) ->
  exists e,
    catch_all_proxy_with limiter backend request w = (Raised e, w1)
    /\ match Config.RATE_LIMITS !! req_method request with
       | Some limit =>
           e = HTTPExc 429
                 ("Too Many Requests. Limit: " ++ str_of_int limit
                  ++ " per 60s. Please retry after 60 seconds.")
       | None => e = Exc KeyError ("'" ++ req_method request ++ "'")
       end.
Proof.
  intros Hclient Hlimited.
  unfold catch_all_proxy_with, bind, client_host.
  rewrite Hclient. cbn [ret]. rewrite Hlimited.
  unfold too_many_requests, bind, rate_limit_of.
  destruct (Config.RATE_LIMITS !! req_method request) as [limit|];
    eexists; split; reflexivity.
Qed.

Lemma rejection_makes_no_backend_call_witness :
  req_client (request_from "GET" "203.0.113.7")
    = Some {| host := "203.0.113.7"; port := 50000 |}
  /\ rejecting_limiter "203.0.113.7" initial_world = (Returned true, initial_world)
  /\ catch_all_proxy_with rejecting_limiter quick_backend
       (request_from "GET" "203.0.113.7") initial_world
     = (Raised (HTTPExc 429
          "Too Many Requests. Limit: 5 per 60s. Please retry after 60 seconds."),
        initial_world).
Proof.
  split; [reflexivity|]. split; [reflexivity|].
  destruct (rejection_makes_no_backend_call rejecting_limiter quick_backend
              (request_from "GET" "203.0.113.7")
              {| host := "203.0.113.7"; port := 50000 |}
              initial_world initial_world eq_refl eq_refl) as (e & Hrun & He).
  rewrite Hrun. f_equal. f_equal. exact He.
Defined.

(** X2.  Whatever the backend does and whatever the request is,
    [forward_proxy] waits for a slot, returns the backend's response, or
    raises one of two errors with a fixed detail: 503 [Backend service
    unavailable] or 500 [Internal Gateway error].  The text of the
    exception it caught is never in what it raises. *)
Theorem forward_proxy_outcomes backend request w :
  is_forward_outcome (fst (forward_proxy backend request w)).
Proof.
  unfold is_forward_outcome.
  destruct (semaphore w) as [|n] eqn:Hsem.
  - rewrite forward_proxy_no_slot by assumption. now left.
  - destruct (req_client request) as [a|] eqn:Hclient.
    + rewrite (forward_proxy_known_client _ _ a) by (congruence || assumption).
      cbn [fst]. unfold backend_outcome.
      destruct (backend (outbound request)) as [delay answer].
      destruct (client_timeout_ms <? delay)%Z; [right; right; now left|].
      destruct answer as [r|e];
        [destruct (response_of r) as [response|e] eqn:Hresponse|];
        [right; left; now exists r, response | |];
        unfold surfaced; destruct (isinstance e RequestError);
        [right; right; now left | right; right; now right
        | right; right; now left | right; right; now right].
    + rewrite forward_proxy_unknown_client by (congruence || assumption).
      right; right; now right.
Qed.

(** X3.  A header [x-forwarded-for] the client sent is passed on as it is:
    the gateway writes the peer's address under the name
    [X-Forwarded-For], which is another key of the dictionary, so the
    backend is given both. *)
Theorem inbound_forwarded_for_is_kept request a (claimed : string) :
  req_client request = Some a ->
  req_headers request !! "x-forwarded-for" = Some claimed ->
  out_headers (outbound request) !! "x-forwarded-for" = Some claimed
  /\ out_headers (outbound request) !! "X-Forwarded-For" = Some (host a).
Proof.
  intros Hclient Hclaimed. unfold outbound. cbn [out_headers].
  rewrite Hclient. split.
  - rewrite !lookup_insert_ne by discriminate.
    rewrite lookup_delete_ne by discriminate. exact Hclaimed.
  - rewrite lookup_insert_ne by discriminate. apply lookup_insert_eq.
Qed.

Lemma inbound_forwarded_for_is_kept_witness :
  req_client spoofing_request = Some {| host := "203.0.113.7"; port := 50000 |}
  /\ req_headers spoofing_request !! "x-forwarded-for" = Some "10.0.0.1"
  /\ out_headers (outbound spoofing_request) !! "x-forwarded-for" = Some "10.0.0.1"
  /\ out_headers (outbound spoofing_request) !! "X-Forwarded-For"
     = Some "203.0.113.7".
Proof.
  split; [reflexivity|]. split; [reflexivity|].
  apply (inbound_forwarded_for_is_kept spoofing_request
           {| host := "203.0.113.7"; port := 50000 |} "10.0.0.1");
    reflexivity.
Defined.

(** X4.  Among plain network locations, the call made to the backend does
    not depend on the [host] header of the request: for a request with
    scheme [http] or [https], header names in lower case and a plain path
    and query string, any two plain values of a leading [host] line give
    the same method, URL, headers and body. *)
Theorem outbound_ignores_plain_host request (value1 value2 : string) :
  req_scheme request = "http" \/ req_scheme request = "https" ->
  lower_names (req_raw_headers request) ->
  plain_path (req_path request) = true ->
  plain_query (req_query_string request) = true ->
  plain_host value1 = true ->
  plain_host value2 = true ->
  outbound (with_host value1 request) = outbound (with_host value2 request).
Proof.
  intros Hscheme Hlower Hpath Hquery Hvalue1 Hvalue2.
  assert (Hheaders : forall value,
             delete "host" (req_headers (with_host value request))
             = delete "host" (req_headers request)).
  { intros value. apply map_eq. intros k.
    destruct (decide (k = "host")) as [->|Hk].
    - now rewrite !lookup_delete_eq.
    - rewrite !lookup_delete_ne by congruence.
      rewrite !req_headers_lookup by (try constructor; trivial).
      cbn [with_host req_raw_headers first_value].
      destruct (String.eqb_spec "host" k) as [<-|_]; [congruence | reflexivity]. }
  unfold outbound.
  rewrite (req_url_plain (with_host value1 request) value1),
    (req_url_plain (with_host value2 request) value2)
    by (assumption || reflexivity).
  now rewrite !Hheaders.
Qed.

Lemma outbound_ignores_plain_host_witness :
  lower_names (req_raw_headers sample_request)
  /\ plain_host "gateway.example" = true
  /\ plain_host "10.1.2.3:8000" = true
  /\ outbound (with_host "gateway.example" sample_request)
     = outbound (with_host "10.1.2.3:8000" sample_request).
Proof.
  assert (Hlower : lower_names (req_raw_headers sample_request))
    by (repeat constructor).
  split; [exact Hlower|]. split; [reflexivity|]. split; [reflexivity|].
  apply (outbound_ignores_plain_host sample_request);
    [now right | exact Hlower | reflexivity..].
Defined.

End ForwardingMore.

(** ** Runs of requests *)

Module ServiceRuns.
Import Py Gateway Proxy Main Views Samples MoreViews PyFacts ProxyFacts.
Local Open Scope gw_scope.

Lemma catch_all_proxy_keeps_slots backend request w :
  semaphore w <> O ->
  let '(o, w') := catch_all_proxy backend request w in
  o <> Blocked /\ semaphore w' = semaphore w.
Proof.
  intros Hfree.
  destruct (req_client request) as [a|] eqn:Hclient.
  - rewrite (RateLimit.catch_all_proxy_known_client _ _ a) by assumption.
    rewrite (forward_proxy_known_client _ _ a) by assumption.
    split; [apply backend_outcome_not_Blocked | reflexivity].
  - rewrite RateLimit.catch_all_proxy_unknown_client by assumption.
    split; [discriminate | reflexivity].
Qed.

(** X5.  Served one after the other from a state with a free slot, no
    request ever waits for a slot, and the number of free slots is the same
    after the run as before it, however many of the calls failed. *)
Theorem sequential_service_never_waits backend requests w :
  semaphore w <> O ->
  let '(outcomes, w') := serve backend requests w in
  Forall (fun o => o <> Blocked) outcomes /\ semaphore w' = semaphore w.
Proof.
  revert w. induction requests as [|r rest IH]; intros w Hfree.
  - cbn. split; [constructor | reflexivity].
  - cbn [serve].
    pose proof (catch_all_proxy_keeps_slots backend r w Hfree) as Hr.
    destruct (catch_all_proxy backend r w) as [o w1].
    destruct Hr as [Ho Hsem].
    assert (Hfree1 : semaphore w1 <> O) by congruence.
    specialize (IH w1 Hfree1).
    destruct (serve backend rest w1) as [os w2].
    destruct IH as [Hos Hsem2].
    split; [constructor; assumption | congruence].
Qed.

Lemma sequential_service_never_waits_witness :
  semaphore initial_world <> O
  /\ (let '(outcomes, w') :=
        serve refusing_backend
          (repeat (request_from "GET" "203.0.113.7") 7) initial_world in
      Forall (fun o => o <> Blocked) outcomes
      /\ semaphore w' = semaphore initial_world).
Proof.
  split; [discriminate|].
  apply (sequential_service_never_waits refusing_backend
           (repeat (request_from "GET" "203.0.113.7") 7) initial_world).
  discriminate.
Defined.

Lemma rejections_none backend requests w :
  rejections (fst (serve backend requests w)) = 0.
Proof.
  pose proof (RateLimit.serve_never_429 backend requests w) as Hnone.
  unfold rejections.
  induction Hnone as [|o os Ho _ IH]; [reflexivity|].
  cbn [List.filter]. now rewrite Ho.
Qed.

(** X6.  After any run of requests from the start of the process, the
    health endpoint reports under [metrics] the number of requests whose
    peer was known as processed, and zero as blocked: nothing in the code
    ever adds to [total_requests_blocked]. *)
Theorem health_metrics_after_service backend requests redis_client backend_get :
  let '(outcomes, w) := serve backend requests initial_world in
  exists j,
    health_check redis_client backend_get w = (Returned j, w)
    /\ get_field "metrics" j =
         Some (JObj [ ("total_requests_processed", JInt (reaching requests));
                      ("total_requests_blocked", JInt 0) ]).
Proof.
  pose proof (RateLimit.serve_counters backend requests initial_world) as Hcount.
  pose proof (rejections_none backend requests initial_world) as Hnone.
  destruct (serve backend requests initial_world) as [outcomes w].
  destruct Hcount as [Hp Hb]. cbn [fst] in Hnone.
  rewrite Hnone in Hb. cbn [initial_world total_requests_processed
    total_requests_blocked] in Hp, Hb.
  eexists. split; [apply Health.health_check_returns|].
  cbn [get_field report field String.eqb Ascii.eqb Bool.eqb].
  rewrite Hp, Hb. reflexivity.
Qed.




End ServiceRuns.

(** ** More on the health endpoint *)

Module HealthMore.
Import Py Gateway Proxy Main Views Samples MoreViews PyFacts.
Local Open Scope gw_scope.

Lemma backend_status_has_Connected (answer : Result Z) :
  (forall e, answer = Err e -> str_in "Connected" (str_of_exc e) = false) ->
  str_in "Connected" (backend_status_of answer)
    = negb (backend_unreachable answer).
Proof.
  intros Htext. unfold backend_status_of, backend_unreachable.
  destruct answer as [code|e].
  - destruct (is_error_status code); [|reflexivity].
    now destruct (Health.error_status_text code) as (_ & _ & ->).
  - specialize (Htext e eq_refl).
    destruct (isinstance e RequestError) eqn:Hreq.
    + assert (Hstatus : isinstance e HTTPStatusError = false).
      { unfold isinstance in *. destruct (exc_type e); try reflexivity;
          discriminate Hreq. }
      rewrite Hstatus.
      rewrite (Health.str_in_skip _ _ "Disconnected (connection error): ")
        by reflexivity.
      exact Htext.
    + destruct (isinstance e HTTPStatusError).
      * now destruct (Health.error_status_text (exc_status_code e))
          as (_ & _ & ->).
      * rewrite (Health.str_in_skip _ _ "Error: ") by reflexivity.
        exact Htext.
Qed.

Lemma backend_status_flags (answer : Result Z) :
  (str_in "Disconnected" (backend_status_of answer)
   || str_in "Error" (backend_status_of answer))%bool
    = backend_unreachable answer.
Proof.
  unfold backend_status_of, backend_unreachable.
  destruct answer as [code|e].
  - destruct (is_error_status code); [|reflexivity].
    now destruct (Health.error_status_text code) as (-> & -> & _).
  - destruct (isinstance e RequestError) eqn:Hreq.
    + assert (Hstatus : isinstance e HTTPStatusError = false).
      { unfold isinstance in *. destruct (exc_type e); try reflexivity;
          discriminate Hreq. }
      rewrite Hstatus.
      now rewrite (Health.str_in_prefix "Disconnected") by reflexivity.
    + destruct (isinstance e HTTPStatusError).
      * now destruct (Health.error_status_text (exc_status_code e))
          as (-> & -> & _).
      * rewrite (Health.str_in_prefix "Error") by reflexivity.
        apply orb_true_r.
Qed.

(** X7.  When the store client was never initialised, the overall status
    is [OK] as long as the backend can be reached, and [UNHEALTHY] when it
    cannot; it is never [DEGRADED].  [redis_status] says [Not Initialized].
    This is for a backend failure whose text lacks the word [Connected]. *)
Theorem uninitialised_store_is_not_degraded backend_get w :
  (forall e, backend_get (Config.PRIMARY_BACKEND ++ "/health") = Err e ->
             str_in "Connected" (str_of_exc e) = false) ->
  exists j,
    health_check None backend_get w = (Returned j, w)
    /\ get_field "redis_status" j = Some (JStr "Not Initialized")
    /\ get_field "status" j =
         Some (JStr (if backend_unreachable
                          (backend_get (Config.PRIMARY_BACKEND ++ "/health"))
                     then "UNHEALTHY" else "OK")).
Proof.
  fold health_url. intros Htext.
  eexists. split; [apply Health.health_check_returns|].
  split; [reflexivity|].
  cbn [get_field report field String.eqb Ascii.eqb Bool.eqb redis_status_of].
  do 2 f_equal. unfold overall_status.
  change (str_in "Disconnected" "Not Initialized") with false.
  change (str_in "Connected" "Not Initialized") with false.
  cbn [orb].
  rewrite backend_status_flags, backend_status_has_Connected by assumption.
  now destruct (backend_unreachable (backend_get health_url)).
Qed.

Lemma uninitialised_store_is_not_degraded_witness :
  (forall e, unreachable_health (Config.PRIMARY_BACKEND ++ "/health") = Err e ->
             str_in "Connected" (str_of_exc e) = false)
  /\ exists j,
       health_check None unreachable_health initial_world
         = (Returned j, initial_world)
       /\ get_field "status" j = Some (JStr "UNHEALTHY").
Proof.
  assert (Htext : forall e,
             unreachable_health (Config.PRIMARY_BACKEND ++ "/health") = Err e ->
             str_in "Connected" (str_of_exc e) = false).
  { intros e [= <-]. reflexivity. }
  split; [exact Htext|].
  destruct (uninitialised_store_is_not_degraded unreachable_health
              initial_world Htext) as (j & Hrun & _ & Hstatus).
  exists j. split; [exact Hrun | exact Hstatus].
Defined.

(** X8.  The overall status is read off the status strings, and those hold
    the text of the exceptions.  So when the ping fails with a text that
    has the word [Connected] in it, the status is [DEGRADED] whatever the
    backend probe gives, also when the backend cannot be reached either. *)
Theorem failure_text_decides_status r e backend_get w :
  ping r = Err e ->
  str_in "Connected" (str_of_exc e) = true ->
  exists j,
    health_check (Some r) backend_get w = (Returned j, w)
    /\ get_field "status" j = Some (JStr "DEGRADED").
Proof.
  intros Hping Htext.
  eexists. split; [apply Health.health_check_returns|].
  cbn [get_field report field String.eqb Ascii.eqb Bool.eqb redis_status_of].
  rewrite Hping. do 2 f_equal. unfold overall_status.
  rewrite (Health.str_in_prefix "Disconnected" ("Disconnected: " ++ str_of_exc e))
    by reflexivity.
  rewrite (Health.str_in_skip _ _ "Disconnected: ") by reflexivity.
  now rewrite Htext.
Qed.

Lemma failure_text_decides_status_witness :
  ping reset_store = Err (Exc RedisConnectionError "Connected peer reset the link")
  /\ str_in "Connected" "Connected peer reset the link" = true
  /\ backend_unreachable (unreachable_health health_url) = true
  /\ exists j,
       health_check (Some reset_store) unreachable_health initial_world
         = (Returned j, initial_world)
       /\ get_field "status" j = Some (JStr "DEGRADED").
Proof.
  split; [reflexivity|]. split; [reflexivity|]. split; [reflexivity|].
  apply (failure_text_decides_status reset_store
           (Exc RedisConnectionError "Connected peer reset the link")
           unreachable_health initial_world); reflexivity.
Defined.

End HealthMore.

(** ** Which handler a request reaches *)

Module Dispatching.
Import Py Gateway Main Routes MoreViews.

Lemma strip_prefix_app (literal s rest : string) :
  strip_prefix literal s = Some rest -> s = literal ++ rest.
Proof.
  revert s. induction literal as [|c literal IH]; intros s H.
  - now injection H as ->.
  - destruct s as [|d s]; [discriminate H|]. cbn [strip_prefix] in H.
    destruct (Ascii.eqb_spec c d) as [->|_]; [|discriminate H].
    change (String d literal ++ rest) with (String d (literal ++ rest)).
    f_equal. now apply IH.
Qed.

(** Every path the health route matches, the catch-all route matches. *)
Lemma catch_all_covers_health (path : string) :
  path_matches (route_path health_route) path = true ->
  path_matches (route_path catch_all_route) path = true.
Proof.
  cbn [route_path health_route catch_all_route path_matches].
  destruct (strip_prefix "/health" path) as [rest|] eqn:Hstrip;
    [|discriminate].
  apply strip_prefix_app in Hstrip. subst path. intros Hrest.
  apply orb_prop in Hrest as [H|H]; apply String.eqb_eq in H; subst rest;
    reflexivity.
Qed.

Lemma health_route_never_first (method path : string) :
  matches health_route method path = FullMatch ->
  matches catch_all_route method path = FullMatch.
Proof.
  unfold matches.
  destruct (path_matches (route_path health_route) path) eqn:Hpath;
    [|discriminate].
  rewrite (catch_all_covers_health _ Hpath).
  cbn [route_methods health_route existsb orb].
  destruct (String.eqb_spec method "GET") as [->|_]; [|discriminate].
  reflexivity.
Qed.

Lemma dispatch_avoids_health (rs : list Route) partial method path :
  Forall (fun r => route_endpoint r <> HealthCheck) rs ->
  dispatch_from rs partial method path <> Handle HealthCheck.
Proof.
  intros Hrs. revert partial.
  induction Hrs as [|r rs Hr _ IH]; intros partial; cbn [dispatch_from].
  - destruct partial; discriminate.
  - destruct (matches r method path); [apply IH | apply IH |].
    intros [= H]. contradiction.
Qed.

(** X10.  [catch_all_proxy] is registered before [health_check], and its
    path takes every path [/health] can be.  So no request is ever handed
    to [health_check], whatever routes come before or after the two; a
    request the catch-all route takes by path and method goes to
    [catch_all_proxy], and GET [/health] is one of them. *)
Theorem health_route_is_shadowed (before after : list Route) method path :
  Forall (fun r => route_endpoint r <> HealthCheck) (before ++ after) ->
  dispatch (before ++ routes ++ after) method path <> Handle HealthCheck
  /\ (matches catch_all_route method path = FullMatch ->
      dispatch routes method path = Handle CatchAllProxy)
  /\ dispatch routes "GET" "/health" = Handle CatchAllProxy.
Proof.
  intros Hothers. apply Forall_app in Hothers as [Hbefore Hafter].
  split; [| split; [|reflexivity]].
  - unfold dispatch. generalize false as partial.
    induction Hbefore as [|r rs Hr _ IH]; intros partial.
    + cbn [app routes dispatch_from].
      destruct (matches catch_all_route method path) eqn:Hcatch;
        [ | | discriminate];
        (destruct (matches health_route method path) eqn:Hhealth;
         [ now apply dispatch_avoids_health
         | now apply dispatch_avoids_health
         | apply health_route_never_first in Hhealth; congruence ]).
    + cbn [app dispatch_from].
      destruct (matches r method path); [apply IH | apply IH |].
      intros [= H]. contradiction.
  - intros Hfull. unfold dispatch, routes. cbn [dispatch_from].
    now rewrite Hfull.
Qed.

Lemma health_route_is_shadowed_witness :
  Forall (fun r => route_endpoint r <> HealthCheck) ([docs_route] ++ [])
  /\ dispatch ([docs_route] ++ routes ++ []) "GET" "/health"
       <> Handle HealthCheck.
Proof.
  assert (H : Forall (fun r => route_endpoint r <> HealthCheck)
                ([docs_route] ++ [])).
  { repeat constructor. discriminate. }
  split; [exact H|].
  apply (health_route_is_shadowed [docs_route] [] "GET" "/health" H).
Defined.

End Dispatching.

(** ** Startup and shutdown *)

Module Startup.
Import Py Gateway Main Lifecycle Views MoreViews.

Lemma status_of_initialised_store (connection : Redis) :
  redis_status_of (Some connection) <> "Not Initialized".
Proof.
  unfold redis_status_of. destruct (ping connection); discriminate.
Qed.

(** X11.  [start] assigns the global before it pings.  So after [start],
    whether it returned or raised, the client is set, and the health
    endpoint never says [Not Initialized], which is what it says when
    [start] has not run.  [start] turns a [redis.ConnectionError] into an
    [HTTPException] with status 500 and lets any other failure through as
    it is. *)
Theorem start_initialises_the_store connection app backend_get w :
  let '(o, app') := start connection app in
  redis_client app' = Some connection
  /\ close_calls app' = close_calls app
  /\ match ping connection with
     | Ok _ => o = Returned tt
     | Err e =>
         o = Raised (if isinstance e RedisConnectionError
                     then HTTPExc 500 "Redis connection failed"
                     else e)
     end
  /\ (exists j,
        health_check (redis_client app') backend_get w = (Returned j, w)
        /\ get_field "redis_status" j <> Some (JStr "Not Initialized"))
  /\ (exists j,
        health_check (redis_client fresh) backend_get w = (Returned j, w)
        /\ get_field "redis_status" j = Some (JStr "Not Initialized")).
Proof.
  assert (Hafter : exists j,
             health_check (Some connection) backend_get w = (Returned j, w)
             /\ get_field "redis_status" j <> Some (JStr "Not Initialized")).
  { eexists. split; [apply Health.health_check_returns|].
    cbn [get_field report field String.eqb Ascii.eqb Bool.eqb].
    intros [= H]. now apply (status_of_initialised_store connection). }
  assert (Hbefore : exists j,
             health_check (redis_client fresh) backend_get w = (Returned j, w)
             /\ get_field "redis_status" j = Some (JStr "Not Initialized")).
  { eexists. split; [apply Health.health_check_returns | reflexivity]. }
  unfold start.
  destruct (ping connection) as [b|e].
  - cbn [redis_client close_calls]. repeat split; assumption.
  - destruct (isinstance e RedisConnectionError);
      cbn [redis_client close_calls].
    + repeat split; assumption.
    + repeat split; assumption.
Qed.

(** X12.  [shutdown] does nothing when [start] has not run.  After
    [start], also one that raised, it awaits [close()] once; it leaves the
    global set, so a second [shutdown] closes again. *)
Theorem shutdown_closes_what_start_set connection app closing again :
  shutdown closing fresh = (Returned tt, fresh)
  /\ (let app1 := snd (start connection app) in
      let '(o, app2) := shutdown closing app1 in
      close_calls app2 = S (close_calls app)
      /\ redis_client app2 = Some connection
      /\ match closing with
         | Ok _ => o = Returned tt
         | Err e => o = Raised e
         end
      /\ close_calls (snd (shutdown again app2)) = S (S (close_calls app))).
Proof.
  split; [reflexivity|].
  assert (Hstart : redis_client (snd (start connection app)) = Some connection
                   /\ close_calls (snd (start connection app)) = close_calls app).
  { unfold start. destruct (ping connection) as [b|e];
      [|destruct (isinstance e RedisConnectionError)]; split; reflexivity. }
  destruct Hstart as [Hclient Hcalls]. cbv zeta.
  unfold shutdown at 1. rewrite Hclient, Hcalls.
  destruct closing as [u|e]; cbn [close_calls redis_client];
    (split; [reflexivity|]); (split; [reflexivity|]);
    (split; [reflexivity|]);
    unfold shutdown; cbn [redis_client close_calls];
    destruct again; reflexivity.
Qed.

End Startup.
